(** * Location bridge and map-centre preservation: a model of the embedded script

    The development embeds two pieces of the repository:

    - the script that [app/index.tsx] injects into the web view (the constant
      [injectedJavaScript], lines 879-1168): the page-wide globals
      [window.__savedMapCenter] and [window.__isFirstMapLoad], the wrapper that
      [window.__installMapInterceptor] puts around [setCenter] of every map
      built afterwards, and the one-second monitoring interval;
    - [web/gps-receiver.js]: the receive handler [handleLocationUpdate], its
      store [window.__gpsState] and [updateMapCenter].

    JavaScript numbers are IEEE binary64 values, so they are modelled by Rocq's
    primitive floats: [Math.abs(lat - DEFAULT_SEOUL_LAT) < 0.00001] is the same
    computation here as in the engine, NaN included.

    The coordinate objects of the mapping library answer [lat()] and [lng()]
    as methods ([web/gps-receiver.js] lines 195-196), while the injected
    script reads [lat] and [lng] as properties; a property value can therefore
    be a function, and the model keeps that case. *)

From Stdlib Require Import Floats Bool ZArith List String Lia.
From stdpp Require Import base list.

Set Warnings "-inexact-float".
Local Open Scope float_scope.

(** ** JavaScript values

    The values that the two scripts distinguish: [undefined], [null], numbers,
    and functions.  [Method r] is a function-valued property, such as [lat] and
    [lng] of the library's coordinate objects; [r] is the number that calling
    it returns.  Properties holding strings or objects are outside the
    model. *)
Module JS.

Inductive Value : Type :=
| Undefined
| Null
| Number (f : float)
| Method (returns : float).

(** ToNumber, as applied by the binary [-] operator; a function converts to
    NaN. *)
Definition ToNumber (v : Value) : float :=
  match v with
  | Undefined => nan
  | Null => 0
  | Number f => f
  | Method _ => nan
  end.

(** ToBoolean: [undefined], [null], [+0], [-0] and [NaN] are falsy; a function
    is truthy. *)
Definition ToBoolean (v : Value) : bool :=
  match v with
  | Number f => negb (is_zero f || is_nan f)
  | Method _ => true
  | _ => false
  end.

(** [v !== undefined] *)
Definition isDefined (v : Value) : bool :=
  match v with Undefined => false | _ => true end.

(** [v === null] *)
Definition isNull (v : Value) : bool :=
  match v with Null => true | _ => false end.

(** [typeof v === 'number'] *)
Definition isNumber (v : Value) : bool :=
  match v with Number _ => true | _ => false end.

(** [a || b] *)
Definition logicalOr (a b : Value) : Value := if ToBoolean a then a else b.

End JS.

(** ** The injected script of [app/index.tsx] *)
Module Interceptor.
Import JS.

(** [const DEFAULT_SEOUL_LAT = 37.566826; const DEFAULT_SEOUL_LNG = 126.9786567;] *)
Definition DEFAULT_SEOUL_LAT : float := 37.566826.
Definition DEFAULT_SEOUL_LNG : float := 126.9786567.

(** The tolerance literal [0.00001] of every comparison in the script. *)
Definition EPSILON : float := 0.00001.

(** [Math.abs(a - b) < 0.00001] *)
Definition near (a : Value) (b : float) : bool :=
  abs (ToNumber a - b) <? EPSILON.

(** [Math.abs(lat - DEFAULT_SEOUL_LAT) < 0.00001 &&
     Math.abs(lng - DEFAULT_SEOUL_LNG) < 0.00001] (lines 1025 and 1121). *)
Definition isDefaultCoords (lat lng : Value) : bool :=
  near lat DEFAULT_SEOUL_LAT && near lng DEFAULT_SEOUL_LNG.

(** The object handed to [setCenter] and returned by [getCenter]: either
    nullish, or an object seen through the four properties the script reads.
    For a literal [{ lat: 37.5, lng: 127.0 }] the properties [c_lat] and
    [c_lng] are numbers; for an object built by the library they are
    methods. *)
Record Coord : Type := mkCoord {
  c_lat : Value;
  c_lng : Value;
  c_x : Value;
  c_y : Value
}.

Inductive Arg : Type :=
| Nullish
| Obj (o : Coord).

(** [latlng?.lat !== undefined ? latlng.lat
      : (latlng?.y !== undefined ? latlng.y : null)] (line 1017). *)
Definition argLat (latlng : Arg) : Value :=
  match latlng with
  | Nullish => Null
  | Obj o => if isDefined (c_lat o) then c_lat o
             else if isDefined (c_y o) then c_y o else Null
  end.

(** [latlng?.lng !== undefined ? latlng.lng
      : (latlng?.x !== undefined ? latlng.x : null)] (line 1018). *)
Definition argLng (latlng : Arg) : Value :=
  match latlng with
  | Nullish => Null
  | Obj o => if isDefined (c_lng o) then c_lng o
             else if isDefined (c_x o) then c_x o else Null
  end.

(** The two globals of lines 889 and 892.  [savedMapCenter] is [null] or the
    object [{ lat, lng }]. *)
Record Globals : Type := mkGlobals {
  savedMapCenter : option (Value * Value);
  isFirstMapLoad : bool
}.

(** One map instance of the third-party library.  [center] is what
    [getCenter()] returns; [wrapped] tells whether the instance was built by
    the replaced constructor; [onPage] whether a container matched by the
    monitor's selector exposes it as [__naverMap]; [originalCalls] logs the
    arguments the library's own [setCenter] has received. *)
Record MapInstance : Type := mkMap {
  center : Arg;
  wrapped : bool;
  onPage : bool;
  originalCalls : list Arg
}.

(** [mapInstance.setCenter.bind(mapInstance)] of the library (line 1014): it
    shows the argument as the new centre. *)
Definition originalSetCenter (m : MapInstance) (latlng : Arg) : MapInstance :=
  mkMap latlng (wrapped m) (onPage m) (originalCalls m ++ [latlng]).

(** A write to the map's centre that does not go through [setCenter]. *)
Definition bypassCenter (m : MapInstance) (c : Arg) : MapInstance :=
  mkMap c (wrapped m) (onPage m) (originalCalls m).

Section WithLibrary.

(** [new naver.maps.LatLng(lat, lng)]: the library's constructor is not part of
    the repository, so it is a parameter. *)
Variable LatLng : Value -> Value -> Arg.

(** The replacement [mapInstance.setCenter = function(latlng) {...}] of lines
    1016-1066.  ([isSavedCenter] of line 1026 is only logged.)  The branches
    are, in order: unreadable coordinates (1020-1023), first load (1033-1044),
    and then, by the saved centre, the substitution (1047-1051) or the silent
    return (1054-1057) for default coordinates and the update (1060-1065) for
    any others. *)
Definition setCenter (g : Globals) (m : MapInstance) (latlng : Arg)
  : Globals * MapInstance :=
  let lat := argLat latlng in
  let lng := argLng latlng in
  if isNull lat || isNull lng then
    (g, originalSetCenter m latlng)
  else
    let isDefault := isDefaultCoords lat lng in
    if isFirstMapLoad g then
      let saved := if negb isDefault then Some (lat, lng) else savedMapCenter g in
      (mkGlobals saved false, originalSetCenter m latlng)
    else
      match savedMapCenter g with
      | Some (slat, slng) =>
          if isDefault then (g, originalSetCenter m (LatLng slat slng))
          else (mkGlobals (Some (lat, lng)) (isFirstMapLoad g),
                originalSetCenter m latlng)
      | None =>
          if isDefault then (g, m)
          else (mkGlobals (Some (lat, lng)) (isFirstMapLoad g),
                originalSetCenter m latlng)
      end.

(** [mapInstance.setCenter(latlng)] as page code or the monitor calls it: the
    wrapper on a wrapped instance, the library's method otherwise. *)
Definition callSetCenter (g : Globals) (m : MapInstance) (latlng : Arg)
  : Globals * MapInstance :=
  if wrapped m then setCenter g m latlng else (g, originalSetCenter m latlng).

(** The body of [mapContainers.forEach] in the monitor (lines 1108-1128). *)
Definition monitorOne (g : Globals) (m : MapInstance) : Globals * MapInstance :=
  if negb (onPage m) then (g, m)
  else
    match center m with
    | Nullish => (g, m)
    | Obj c =>
        let lat := JS.logicalOr (c_lat c) (c_y c) in
        let lng := JS.logicalOr (c_lng c) (c_x c) in
        if negb (ToBoolean lat) || negb (ToBoolean lng) then (g, m)
        else
          match savedMapCenter g with
          | None => (g, m)
          | Some (slat, slng) =>
              let isAtDefault := isDefaultCoords lat lng in
              let isAtSaved :=
                near lat (ToNumber slat) && near lng (ToNumber slng) in
              if isAtDefault && negb isAtSaved
              then callSetCenter g m (LatLng slat slng)
              else (g, m)
          end
    end.

(** [mapContainers.forEach(...)]: the instances are visited in order, each
    seeing the globals left by the previous one. *)
Fixpoint monitorAll (g : Globals) (ms : list MapInstance)
  : Globals * list MapInstance :=
  match ms with
  | [] => (g, [])
  | m :: rest =>
      let '(g1, m1) := monitorOne g m in
      let '(g2, rest2) := monitorAll g1 rest in
      (g2, m1 :: rest2)
  end.

(** The page as the script sees it. *)
Record Page : Type := mkPage {
  globals : Globals;
  naverLoaded : bool;
  interceptorInstalled : bool;
  maps : list MapInstance
}.

(** The callback of [setInterval(..., 1000)] (lines 1101-1132). *)
Definition monitorTick (p : Page) : Page :=
  match savedMapCenter (globals p) with
  | None => p
  | Some _ =>
      if negb (naverLoaded p) then p
      else
        let '(g', ms') := monitorAll (globals p) (maps p) in
        mkPage g' (naverLoaded p) (interceptorInstalled p) ms'
  end.

(** [window.__installMapInterceptor()] as the script runs it (lines 1003-1097):
    nothing happens until the library is loaded; the script stops calling it
    after the first success. *)
Definition installMapInterceptor (p : Page) : Page :=
  if naverLoaded p
  then mkPage (globals p) true true (maps p)
  else p.

(** What can happen to the page.  [NewMap] is [new naver.maps.Map(...)] by page
    code, [Bypass] a change of a map's centre that avoids [setCenter], [Fetch]
    and [XhrOpen] the page's two network-request primitives called with a
    URL. *)
Inductive Event : Type :=
| NaverLoaded
| InstallAttempt
| NewMap (initial : Arg) (visible : bool)
| SetCenter (i : nat) (latlng : Arg)
| Bypass (i : nat) (c : Arg)
| MonitorTick
| Fetch (url : string)
| XhrOpen (url : string).

(** One turn of the page's event loop: the page after the event, with
    everything the script's code does during that turn. *)
Definition step (p : Page) (e : Event) : Page :=
  match e with
  | NaverLoaded =>
      mkPage (globals p) true (interceptorInstalled p) (maps p)
  | InstallAttempt => installMapInterceptor p
  | NewMap c0 vis =>
      if naverLoaded p
      then mkPage (globals p) (naverLoaded p) (interceptorInstalled p)
             (maps p ++ [mkMap c0 (interceptorInstalled p) vis []])
      else p
  | SetCenter i latlng =>
      match maps p !! i with
      | Some m =>
          let '(g', m') := callSetCenter (globals p) m latlng in
          mkPage g' (naverLoaded p) (interceptorInstalled p) (<[i := m']> (maps p))
      | None => p
      end
  | Bypass i c =>
      match maps p !! i with
      | Some m =>
          mkPage (globals p) (naverLoaded p) (interceptorInstalled p)
            (<[i := bypassCenter m c]> (maps p))
      | None => p
      end
  | MonitorTick => monitorTick p
  | Fetch _ => p     (* [window.fetch] is the page's own: the script never assigns it *)
  | XhrOpen _ => p   (* nor [XMLHttpRequest.prototype.open] *)
  end.

(** The page right after the script has run: lines 889 and 892. *)
Definition initialPage : Page :=
  mkPage (mkGlobals None true) false false [].

Definition run (p : Page) (es : list Event) : Page := fold_left step es p.

(** The test the monitor applies to one map while the saved centre is
    [{ lat: slat, lng: slng }] (lines 1109-1124): the map is exposed by a
    matched container, its centre has truthy coordinates, it reads as the
    default and not as the saved centre. *)
Definition needsRestore (slat slng : Value) (m : MapInstance) : bool :=
  onPage m &&
  match center m with
  | Nullish => false
  | Obj c =>
      let lat := JS.logicalOr (c_lat c) (c_y c) in
      let lng := JS.logicalOr (c_lng c) (c_x c) in
      ToBoolean lat && ToBoolean lng &&
      isDefaultCoords lat lng &&
      negb (near lat (ToNumber slat) && near lng (ToNumber slng))
  end.

(** The events in which page code calls a network-request primitive. *)
Definition isNetworkCall (e : Event) : bool :=
  match e with
  | Fetch _ | XhrOpen _ => true
  | _ => false
  end.


(** The flag is consumed whenever the saved centre is filled. *)
Definition flagConsumedWhenSaved (g : Globals) : bool :=
  match savedMapCenter g with
  | Some _ => negb (isFirstMapLoad g)
  | None => true
  end.

End WithLibrary.

(** The library's constructor for concrete runs: a coordinate object as the
    mapping library builds it, by what the repository shows of it.  [lat()]
    and [lng()] are methods ([web/gps-receiver.js] lines 195-196), and [y]
    and [x] hold the two numbers. *)
Definition libraryLatLng (lat lng : Value) : Arg :=
  Obj (mkCoord (Method (ToNumber lat)) (Method (ToNumber lng))
         (Number (ToNumber lng)) (Number (ToNumber lat))).

(** [new naver.maps.LatLng(37.566826, 126.9786567)] and
    [new naver.maps.LatLng(37.123, 127.456)]. *)
Definition seoulLatLng : Arg :=
  libraryLatLng (Number DEFAULT_SEOUL_LAT) (Number DEFAULT_SEOUL_LNG).

Definition fix123LatLng : Arg :=
  libraryLatLng (Number 37.123) (Number 127.456).

(** Concrete arguments: the literal [{ lat: 37.566826, lng: 126.9786567 }] that
    the page's category handlers pass, a fix at (37.5, 127.0), and the centre a
    map is built with in the runs below. *)
Definition seoul : Arg :=
  Obj (mkCoord (Number DEFAULT_SEOUL_LAT) (Number DEFAULT_SEOUL_LNG)
         Undefined Undefined).

Definition fix375 : Arg :=
  Obj (mkCoord (Number 37.5) (Number 127.0) Undefined Undefined).

Definition busan : Arg :=
  Obj (mkCoord (Number 35.1796) (Number 129.0756) Undefined Undefined).

(** The library is loaded, the interceptor installed, one map built and shown
    through a matched container. *)
Definition oneMapPage : Page :=
  run libraryLatLng initialPage [NaverLoaded; InstallAttempt; NewMap busan true].

(** The same page after page code has centred the map on (37.5, 127.0). *)
Definition fixedPage : Page :=
  step libraryLatLng oneMapPage (SetCenter 0 fix375).

(** The same page after the map's first call was made with the default. *)
Definition loadedPage : Page :=
  step libraryLatLng oneMapPage (SetCenter 0 seoul).

(** [fixedPage] after the map's centre was set to the default behind the
    wrapper's back. *)
Definition resetPage : Page :=
  step libraryLatLng fixedPage (Bypass 0 seoul).


(** A URL of the kind the page requests when a category is switched. *)
Definition categoryUrl : string :=
  "https://timedealing.com/api/1.1/wf/category-markers".

End Interceptor.

(** ** The engine's [Math] functions

    ECMAScript leaves [Math.sin], [Math.cos] and [Math.atan2]
    implementation-approximated, so [calculateDistance] below takes them as a
    parameter.  For concrete runs this module gives one implementation by
    power series in binary64 arithmetic; it is exact at the arguments where
    the standard fixes the result ([sin 0 = 0], [cos 0 = 1], [atan2 0 1 = 0]). *)
Module Engine.

Record MathLib : Type := mkMath {
  Math_sin : float -> float;
  Math_cos : float -> float;
  Math_atan2 : float -> float -> float
}.

(** [Math.PI] *)
Definition Math_PI : float := 3.141592653589793.

(** Sum of [n] further terms of an alternating series: [term] is the current
    term, [k] the index its successor is divided by, [x2] the squared
    argument. *)
Fixpoint trigSeries (n : nat) (x2 term k acc : float) : float :=
  match n with
  | O => acc
  | S n' =>
      let term' := (0 - term) * x2 / (k * (k + 1)) in
      trigSeries n' x2 term' (k + 2) (acc + term')
  end.

Definition sinSeries (x : float) : float := trigSeries 16 (x * x) x 2 x.
Definition cosSeries (x : float) : float := trigSeries 16 (x * x) 1 1 1.

(** [t - t^3/3 + t^5/5 - ...], [n] terms after the first. *)
Fixpoint atanSeries (n : nat) (t2 power k acc : float) : float :=
  match n with
  | O => acc
  | S n' =>
      let power' := (0 - power) * t2 in
      atanSeries n' t2 power' (k + 2) (acc + power' / k)
  end.

(** Arctangent on [0 <= t <= 1]: two halvings of the angle, then the series. *)
Definition atanUnit (t : float) : float :=
  let h1 := t / (1 + sqrt (1 + t * t)) in
  let h2 := h1 / (1 + sqrt (1 + h1 * h1)) in
  4 * atanSeries 14 (h2 * h2) h2 3 h2.

Definition atanPos (t : float) : float :=
  if t <=? 1 then atanUnit t else Math_PI / 2 - atanUnit (1 / t).

Definition atan2Series (y x : float) : float :=
  if is_zero x then
    (if is_zero y then 0 else if 0 <? y then Math_PI / 2 else 0 - Math_PI / 2)
  else
    let a := atanPos (abs (y / x)) in
    if 0 <? x then (if y <? 0 then 0 - a else a)
    else (if y <? 0 then a - Math_PI else Math_PI - a).

Definition seriesMath : MathLib := mkMath sinSeries cosSeries atan2Series.

End Engine.

(** ** [web/gps-receiver.js] *)
Module GpsReceiver.
Import JS Engine.

(** The payload of a [LOCATION_UPDATE] message, by the properties the script
    reads. *)
Record LocationData : Type := mkLocation {
  latitude : Value;
  longitude : Value;
  accuracy : Value;
  timestamp : Value
}.

(** [window.__gpsState] (lines 11-17); [errors] is never written.  A listener
    is known by an identifier. *)
Record GpsState : Type := mkGpsState {
  isTracking : bool;
  lastLocation : option LocationData;
  updateCount : float;
  listeners : list nat
}.

(** The map found through [mapContainer.__naverMap]: the coordinates its
    centre answers to [lat()] and [lng()], whether it has [getCenter], and the
    centres its [setCenter] has been given. *)
Record NaverMap : Type := mkNaverMap {
  mapCenter : float * float;
  hasGetCenter : bool;
  setCenterCalls : list (float * float)
}.

(** [map.setCenter(newCenter)] with [newCenter = new naver.maps.LatLng(lat, lng)]. *)
Definition mapSetCenter (m : NaverMap) (c : float * float) : NaverMap :=
  mkNaverMap c (hasGetCenter m) (setCenterCalls m ++ [c]).

(** The part of the page the script reads and writes.  [mapContainer] is the
    first element matching [[data-naver-map], .naver-map, #map] with its
    [__naverMap] property; [autoFollowLocation] is [None] while
    [window.__autoFollowLocation] is unset; [onGPSUpdate] is the callback hook
    when it is a function; [notified] logs the callbacks invoked with their
    payload. *)
Record ReceiverPage : Type := mkReceiverPage {
  gpsState : GpsState;
  onGPSUpdate : option nat;
  autoFollowLocation : option bool;
  naverAvailable : bool;
  mapContainer : option (option NaverMap);
  notified : list (nat * LocationData)
}.

Definition withGpsState (p : ReceiverPage) (s : GpsState) : ReceiverPage :=
  mkReceiverPage s (onGPSUpdate p) (autoFollowLocation p) (naverAvailable p)
    (mapContainer p) (notified p).

Definition withNotified (p : ReceiverPage) (l : list (nat * LocationData)) : ReceiverPage :=
  mkReceiverPage (gpsState p) (onGPSUpdate p) (autoFollowLocation p) (naverAvailable p)
    (mapContainer p) l.

Definition withMap (p : ReceiverPage) (m : NaverMap) : ReceiverPage :=
  mkReceiverPage (gpsState p) (onGPSUpdate p) (autoFollowLocation p) (naverAvailable p)
    (Some (Some m)) (notified p).

(** How a call ends: by returning, or by a thrown exception that the caller's
    [try/catch] swallows. *)
Inductive Completion : Type :=
| Returned
| Threw.

Section WithMath.

Variable M : MathLib.

(** [calculateDistance] (lines 244-253), the haversine formula. *)
Definition calculateDistance (lat1 lng1 lat2 lng2 : float) : float :=
  let R := 6371000 in
  let dLat := ((lat2 - lat1) * Math_PI) / 180 in
  let dLng := ((lng2 - lng1) * Math_PI) / 180 in
  let a :=
    Math_sin M (dLat / 2) * Math_sin M (dLat / 2) +
    ((Math_cos M ((lat1 * Math_PI) / 180) * Math_cos M ((lat2 * Math_PI) / 180))
       * Math_sin M (dLng / 2)) * Math_sin M (dLng / 2) in
  let c := 2 * Math_atan2 M (sqrt a) (sqrt (1 - a)) in
  R * c.

(** [updateMapCenter] (lines 172-210), called with numeric coordinates. *)
Definition updateMapCenter (p : ReceiverPage) (lat lng : float) : ReceiverPage :=
  if negb (naverAvailable p) then p
  else
    match mapContainer p with
    | None => p
    | Some None => p
    | Some (Some map) =>
        match autoFollowLocation p with
        | Some false => p
        | _ =>
            if hasGetCenter map then
              let distance :=
                calculateDistance (fst (mapCenter map)) (snd (mapCenter map)) lat lng in
              if 50 <? distance then withMap p (mapSetCenter map (lat, lng))
              else p
            else p
        end
    end.

(** The calls of [window.onGPSUpdate] and of [notifyListeners] (lines 97-107):
    each callback runs inside its own [try/catch]. *)
Definition notifyAll (p : ReceiverPage) (d : LocationData) : ReceiverPage :=
  let hook := match onGPSUpdate p with Some f => [(f, d)] | None => [] end in
  withNotified p
    (notified p ++ hook ++ map (fun f => (f, d)) (listeners (gpsState p))).

(** [handleLocationUpdate] (lines 77-114).  The state is written before the log
    line of lines 90-95, whose [locationData.longitude.toFixed(4)] throws when
    the longitude is not a number.  [updateLocationUI] only writes to the
    document and is left out. *)
Definition handleLocationUpdate (p : ReceiverPage) (locationData : option LocationData)
  : ReceiverPage * Completion :=
  match locationData with
  | None => (p, Returned)
  | Some d =>
      match latitude d with
      | Number lat =>
          let s := gpsState p in
          let p1 :=
            withGpsState p
              (mkGpsState true (Some d) (updateCount s + 1) (listeners s)) in
          match longitude d with
          | Number lng => (updateMapCenter (notifyAll p1 d) lat lng, Returned)
          | _ => (p1, Threw)
          end
      | _ => (p, Returned)
      end
  end.

(** A message event as the listeners of lines 44-68 see it. *)
Inductive Message : Type :=
| NotJson
| Json (type : string) (data : option LocationData).

(** The listener body: [JSON.parse], the test of [message.type], the call, all
    inside [try/catch]. *)
Definition onMessage (p : ReceiverPage) (msg : Message) : ReceiverPage :=
  match msg with
  | NotJson => p
  | Json type data =>
      if String.eqb type "LOCATION_UPDATE"
      then fst (handleLocationUpdate p data)
      else p
  end.

(** Samples handed to the handler one after the other. *)
Definition deliverAll (p : ReceiverPage) (ds : list LocationData) : ReceiverPage :=
  fold_left (fun q d => fst (handleLocationUpdate q (Some d))) ds p.

(** The validation of lines 79-82. *)
Definition accepted (locationData : option LocationData) : bool :=
  match locationData with
  | Some d => isNumber (latitude d)
  | None => false
  end.

End WithMath.

(** The last payload of a sequence that passes the validation, if there is
    one. *)
Fixpoint lastAccepted (ds : list LocationData) : option LocationData :=
  match ds with
  | [] => None
  | d :: rest =>
      match lastAccepted rest with
      | Some d' => Some d'
      | None => if accepted (Some d) then Some d else None
      end
  end.

(** The page right after the script has run, with nothing else on it. *)
Definition emptyPage : ReceiverPage :=
  mkReceiverPage (mkGpsState false None 0 []) None None false None [].

(** Concrete samples: two fixes with timestamps 1000 and 900, a latitude
    outside [-90, 90], a payload without longitude, one without latitude, and
    a fix about eleven metres north of (37.5, 127.0). *)
Definition sample1000 : LocationData :=
  mkLocation (Number 37.123) (Number 127.456) (Number 5) (Number 1000).

Definition sample900 : LocationData :=
  mkLocation (Number 37.2) (Number 127.5) (Number 5) (Number 900).

Definition latitude999 : LocationData :=
  mkLocation (Number 999) (Number 127.0) (Number 5) (Number 1000).

Definition noLongitude : LocationData :=
  mkLocation (Number 37.5) Undefined (Number 5) (Number 1000).

Definition noLatitude : LocationData :=
  mkLocation Undefined (Number 127.0) (Number 5) (Number 3000).

Definition nearby : LocationData :=
  mkLocation (Number 37.5001) (Number 127.0) (Number 5) (Number 2000).

(** A page whose first matched container exposes a map centred on
    (37.5, 127.0), with auto-follow left unset. *)
Definition mapPage : ReceiverPage :=
  mkReceiverPage (mkGpsState false None 0 []) None None true
    (Some (Some (mkNaverMap (37.5, 127.0) true []))) [].

End GpsReceiver.

(** * Facts about binary64 values *)
Module FloatFacts.



End FloatFacts.

(** * Properties of the injected script *)
Module InterceptorProofs.
Import JS Interceptor.

(** ** Reading coordinates *)

Lemma near_null_lat : near Null DEFAULT_SEOUL_LAT = false.
Proof. vm_compute. reflexivity. Qed.

Lemma near_null_lng : near Null DEFAULT_SEOUL_LNG = false.
Proof. vm_compute. reflexivity. Qed.

(** Coordinates that compare equal to the default are never [null]. *)
Lemma default_not_null (lat lng : Value) :
  isDefaultCoords lat lng = true -> isNull lat || isNull lng = false.
Proof.
  unfold isDefaultCoords. intros H.
  apply andb_true_iff in H. destruct H as [Hlat Hlng].
  destruct lat; destruct lng; simpl; try reflexivity.
  all: try (rewrite near_null_lat in Hlat; discriminate).
  all: try (rewrite near_null_lng in Hlng; discriminate).
Qed.

Section Wrapper.

Variable LatLng : Value -> Value -> Arg.

(** ** The wrapper, branch by branch *)

(** Lines 1020-1023: unreadable coordinates go straight to the library. *)
Lemma setCenter_unreadable g m latlng :
  isNull (argLat latlng) || isNull (argLng latlng) = true ->
  setCenter LatLng g m latlng = (g, originalSetCenter m latlng).
Proof. intros H. unfold setCenter. rewrite H. reflexivity. Qed.

(** Lines 1033-1044. *)
Lemma setCenter_first_load g m latlng :
  isFirstMapLoad g = true ->
  snd (setCenter LatLng g m latlng) = originalSetCenter m latlng.
Proof.
  intros Hf. unfold setCenter.
  destruct (isNull (argLat latlng) || isNull (argLng latlng)); [reflexivity|].
  rewrite Hf. reflexivity.
Qed.

(** Lines 1047-1051. *)
Lemma setCenter_blocked g m latlng A B :
  isFirstMapLoad g = false ->
  savedMapCenter g = Some (A, B) ->
  isDefaultCoords (argLat latlng) (argLng latlng) = true ->
  setCenter LatLng g m latlng = (g, originalSetCenter m (LatLng A B)).
Proof.
  intros Hf Hs Hd. unfold setCenter.
  rewrite (default_not_null _ _ Hd), Hf, Hs, Hd. reflexivity.
Qed.

(** Lines 1054-1057. *)
Lemma setCenter_blocked_empty g m latlng :
  isFirstMapLoad g = false ->
  savedMapCenter g = None ->
  isDefaultCoords (argLat latlng) (argLng latlng) = true ->
  setCenter LatLng g m latlng = (g, m).
Proof.
  intros Hf Hs Hd. unfold setCenter.
  rewrite (default_not_null _ _ Hd), Hf, Hs, Hd. reflexivity.
Qed.

(** Lines 1060-1065. *)
Lemma setCenter_other g m latlng :
  isFirstMapLoad g = false ->
  isNull (argLat latlng) || isNull (argLng latlng) = false ->
  isDefaultCoords (argLat latlng) (argLng latlng) = false ->
  setCenter LatLng g m latlng =
    (mkGlobals (Some (argLat latlng, argLng latlng)) false,
     originalSetCenter m latlng).
Proof.
  intros Hf Hn Hd. unfold setCenter. rewrite Hn, Hf, Hd.
  destruct (savedMapCenter g) as [[? ?]|]; reflexivity.
Qed.



(** ** Invariants of the globals

    Only the wrapper writes the globals, so a property of the globals that
    every call of the wrapper keeps is kept by every event. *)
Section GlobalsInvariant.

Variable Inv : Globals -> Prop.

Hypothesis setCenter_keeps : forall g m latlng,
  Inv g -> Inv (fst (setCenter LatLng g m latlng)).

Lemma callSetCenter_keeps g m latlng :
  Inv g -> Inv (fst (callSetCenter LatLng g m latlng)).
Proof.
  intros H. unfold callSetCenter. destruct (wrapped m); simpl; auto.
Qed.

Lemma monitorOne_keeps g m :
  Inv g -> Inv (fst (monitorOne LatLng g m)).
Proof.
  intros H. unfold monitorOne.
  destruct (negb (onPage m)); simpl; auto.
  destruct (center m) as [|c]; simpl; auto.
  destruct (negb (ToBoolean (JS.logicalOr (c_lat c) (c_y c)))
            || negb (ToBoolean (JS.logicalOr (c_lng c) (c_x c)))); simpl; auto.
  destruct (savedMapCenter g) as [[a b]|] eqn:Hs; simpl; auto.
  match goal with |- context [if ?c then _ else _] => destruct c end; simpl; auto.
  now apply callSetCenter_keeps.
Qed.

Lemma monitorAll_keeps ms : forall g,
  Inv g -> Inv (fst (monitorAll LatLng g ms)).
Proof.
  induction ms as [|m rest IH]; intros g H; simpl; auto.
  destruct (monitorOne LatLng g m) as [g1 m1] eqn:E1.
  destruct (monitorAll LatLng g1 rest) as [g2 rest2] eqn:E2. simpl.
  specialize (IH g1). rewrite E2 in IH. apply IH.
  pose proof (monitorOne_keeps g m H) as H1. now rewrite E1 in H1.
Qed.

Lemma step_keeps p e :
  Inv (globals p) -> Inv (globals (step LatLng p e)).
Proof.
  intros H. destruct e; simpl; auto.
  - unfold installMapInterceptor. destruct (naverLoaded p); auto.
  - destruct (naverLoaded p); auto.
  - destruct (maps p !! i) as [m|]; auto.
    destruct (callSetCenter LatLng (globals p) m latlng) as [g' m'] eqn:E.
    simpl. pose proof (callSetCenter_keeps (globals p) m latlng H) as H1.
    now rewrite E in H1.
  - destruct (maps p !! i); auto.
  - unfold monitorTick. destruct (savedMapCenter (globals p)) eqn:Hs; auto.
    destruct (negb (naverLoaded p)); auto.
    destruct (monitorAll LatLng (globals p) (maps p)) as [g' ms'] eqn:E. simpl.
    pose proof (monitorAll_keeps (maps p) (globals p) H) as H1.
    now rewrite E in H1.
Qed.

Lemma run_keeps es : forall p,
  Inv (globals p) -> Inv (globals (run LatLng p es)).
Proof.
  induction es as [|e es IH]; intros p H; simpl; auto.
  apply IH. now apply step_keeps.
Qed.

End GlobalsInvariant.

(** ** The page: a call of [setCenter] on the [i]-th map *)

Lemma step_SetCenter_wrapped p i m latlng :
  maps p !! i = Some m ->
  wrapped m = true ->
  step LatLng p (SetCenter i latlng) =
    mkPage (fst (setCenter LatLng (globals p) m latlng)) (naverLoaded p)
      (interceptorInstalled p)
      (<[i := snd (setCenter LatLng (globals p) m latlng)]> (maps p)).
Proof.
  intros Hi Hw. simpl. rewrite Hi. unfold callSetCenter. rewrite Hw.
  destruct (setCenter LatLng (globals p) m latlng). reflexivity.
Qed.

Lemma lookup_insert_same (ms : list MapInstance) i m m' :
  ms !! i = Some m -> <[i := m']> ms !! i = Some m'.
Proof.
  intros H. apply list_lookup_insert_eq. eapply lookup_lt_Some. exact H.
Qed.

Lemma page_eta p :
  mkPage (globals p) (naverLoaded p) (interceptorInstalled p) (maps p) = p.
Proof. destruct p. reflexivity. Qed.

(** ** Arguments whose [lat] and [lng] are methods *)

(** A function converts to NaN, which compares equal to nothing. *)
Lemma method_not_default la ln :
  isDefaultCoords (Method la) (Method ln) = false.
Proof. reflexivity. Qed.

(** Whatever the globals hold, the wrapper hands an object whose [lat] and
    [lng] are methods to the library, clears the flag and saves the two
    functions as the centre: line 1017 reads a function, line 1025 computes
    NaN, and the call ends in the first-load branch or at lines 1060-1065. *)
Lemma setCenter_methods g m c la ln :
  c_lat c = Method la ->
  c_lng c = Method ln ->
  setCenter LatLng g m (Obj c) =
    (mkGlobals (Some (Method la, Method ln)) false,
     originalSetCenter m (Obj c)).
Proof.
  intros Hlat Hlng. unfold setCenter, argLat, argLng.
  rewrite Hlat, Hlng. cbn [isDefined isNull orb].
  rewrite method_not_default. cbn [negb].
  destruct (isFirstMapLoad g) eqn:Hf; [reflexivity|].
  destruct (savedMapCenter g) as [[a b]|]; reflexivity.
Qed.

(** Lines 1047-1051 on a page: a call whose coordinates are numbers that
    compare equal to the default is answered with [LatLng] of the saved
    centre. *)
Lemma plain_default_is_blocked p i m latlng A B :
  maps p !! i = Some m ->
  wrapped m = true ->
  isFirstMapLoad (globals p) = false ->
  savedMapCenter (globals p) = Some (A, B) ->
  isDefaultCoords (argLat latlng) (argLng latlng) = true ->
  step LatLng p (SetCenter i latlng) =
    mkPage (globals p) (naverLoaded p) (interceptorInstalled p)
      (<[i := originalSetCenter m (LatLng A B)]> (maps p)).
Proof.
  intros Hi Hw Hf Hs Hd.
  rewrite (step_SetCenter_wrapped p i m latlng Hi Hw).
  rewrite (setCenter_blocked (globals p) m latlng A B Hf Hs Hd). reflexivity.
Qed.

(** C1 -- the blocking branch misses the library's own coordinate objects.
    On a wrapped map, with the first-load flag consumed and a centre (A, B)
    saved, a [setCenter] call with an object whose [lat] and [lng] are methods
    -- whatever they return, the default included -- is not blocked: the
    library's [setCenter] receives that very object, so the map shows it, and
    the saved centre is overwritten with the two functions. *)
Theorem library_default_is_not_blocked p i m c la ln A B :
  maps p !! i = Some m ->
  wrapped m = true ->
  isFirstMapLoad (globals p) = false ->
  savedMapCenter (globals p) = Some (A, B) ->
  c_lat c = Method la ->
  c_lng c = Method ln ->
  maps (step LatLng p (SetCenter i (Obj c))) !! i =
    Some (mkMap (Obj c) true (onPage m) (originalCalls m ++ [Obj c]))
  /\ savedMapCenter (globals (step LatLng p (SetCenter i (Obj c)))) =
       Some (Method la, Method ln).
Proof.
  intros Hi Hw Hf Hs Hlat Hlng.
  rewrite (step_SetCenter_wrapped p i m (Obj c) Hi Hw).
  rewrite (setCenter_methods (globals p) m c la ln Hlat Hlng). simpl.
  split; [|reflexivity].
  rewrite (lookup_insert_same _ _ _ _ Hi).
  unfold originalSetCenter. rewrite Hw. reflexivity.
Qed.

(** Lines 1060-1065 on a page: a call whose coordinates are numbers (a, b)
    that do not compare equal to the default is handed on and (a, b) is
    saved. *)
Lemma plain_update_is_saved p i m latlng a b :
  maps p !! i = Some m ->
  wrapped m = true ->
  isFirstMapLoad (globals p) = false ->
  argLat latlng = Number a ->
  argLng latlng = Number b ->
  isDefaultCoords (Number a) (Number b) = false ->
  step LatLng p (SetCenter i latlng) =
    mkPage (mkGlobals (Some (Number a, Number b)) false) (naverLoaded p)
      (interceptorInstalled p) (<[i := originalSetCenter m latlng]> (maps p)).
Proof.
  intros Hi Hw Hf Ha Hb Hd.
  rewrite (step_SetCenter_wrapped p i m latlng Hi Hw).
  rewrite setCenter_other; rewrite ?Ha, ?Hb; auto.
Qed.

(** C4 -- an update made with a coordinate object of the library does not
    save its coordinates.  A [setCenter] call on a wrapped map with an object
    whose [lat] and [lng] are methods is handed to the library, but what the
    wrapper saves is the pair of functions, not the numbers (A, B) they
    return; a later call with plain default coordinates is then answered with
    [LatLng] of the two functions. *)
Theorem library_update_saves_methods p i m c la ln :
  maps p !! i = Some m ->
  wrapped m = true ->
  c_lat c = Method la ->
  c_lng c = Method ln ->
  step LatLng p (SetCenter i (Obj c)) =
    mkPage (mkGlobals (Some (Method la, Method ln)) false) (naverLoaded p)
      (interceptorInstalled p) (<[i := originalSetCenter m (Obj c)]> (maps p))
  /\ forall (m2 : MapInstance) (l2 : Arg),
       isDefaultCoords (argLat l2) (argLng l2) = true ->
       snd (setCenter LatLng (globals (step LatLng p (SetCenter i (Obj c))))
              m2 l2) =
         originalSetCenter m2 (LatLng (Method la) (Method ln)).
Proof.
  intros Hi Hw Hlat Hlng.
  rewrite (step_SetCenter_wrapped p i m (Obj c) Hi Hw).
  rewrite (setCenter_methods (globals p) m c la ln Hlat Hlng). simpl.
  split; [reflexivity|].
  intros m2 l2 Hd.
  rewrite (setCenter_blocked
             (mkGlobals (Some (Method la, Method ln)) false) m2 l2
             (Method la) (Method ln) eq_refl eq_refl Hd).
  reflexivity.
Qed.

(** The flag after a call of the wrapper: it survives exactly the calls whose
    coordinates cannot be read. *)
Lemma setCenter_flag_after g m latlng :
  isFirstMapLoad (fst (setCenter LatLng g m latlng)) =
    isFirstMapLoad g && (isNull (argLat latlng) || isNull (argLng latlng)).
Proof.
  unfold setCenter.
  destruct (isNull (argLat latlng) || isNull (argLng latlng)); simpl.
  - now rewrite andb_true_r.
  - rewrite andb_false_r.
    destruct (isFirstMapLoad g) eqn:Hf; [reflexivity|].
    destruct (savedMapCenter g) as [[a b]|];
      destruct (isDefaultCoords (argLat latlng) (argLng latlng)); simpl; auto.
Qed.

(** C5 (as amended) -- empty-store default blocking hangs on the page-wide
    flag.  A [setCenter] call on a wrapped map clears [window.__isFirstMapLoad]
    when its coordinates can be read and leaves it alone when they cannot.
    With the flag cleared and the saved centre still [null], a call whose
    coordinates are numbers that compare equal to the default changes nothing:
    the library's [setCenter] is not called and the saved centre stays
    [null]. *)
Theorem empty_store_default_blocking p i m latlng :
  maps p !! i = Some m ->
  wrapped m = true ->
  isFirstMapLoad (globals (step LatLng p (SetCenter i latlng))) =
    isFirstMapLoad (globals p)
    && (isNull (argLat latlng) || isNull (argLng latlng))
  /\ (isFirstMapLoad (globals p) = false ->
      savedMapCenter (globals p) = None ->
      isDefaultCoords (argLat latlng) (argLng latlng) = true ->
      step LatLng p (SetCenter i latlng) = p
      /\ maps (step LatLng p (SetCenter i latlng)) !! i = Some m
      /\ savedMapCenter (globals (step LatLng p (SetCenter i latlng))) = None).
Proof.
  intros Hi Hw. split.
  - rewrite (step_SetCenter_wrapped p i m latlng Hi Hw). simpl.
    apply setCenter_flag_after.
  - intros Hf Hs Hd.
    assert (E : step LatLng p (SetCenter i latlng) = p).
    { rewrite (step_SetCenter_wrapped p i m latlng Hi Hw).
      rewrite (setCenter_blocked_empty (globals p) m latlng Hf Hs Hd). simpl.
      rewrite (list_insert_id _ _ _ Hi). apply page_eta. }
    rewrite E. auto.
Qed.

(** C3 (as amended) -- the first-load pass-through is page-wide.  While
    [window.__isFirstMapLoad] is still set, a [setCenter] call on any wrapped
    map is handed unchanged to the library, whatever its coordinates; when the
    coordinates are readable the call clears the flag, and from then on a call
    whose coordinates are numbers that compare equal to the default, on any
    wrapped map -- also one built later, on its very first call -- is not
    handed on: with the saved centre [null] the map is left alone, and with a
    saved centre (a, b) the library is given [LatLng(a, b)].  The globals are
    left as they are in both cases. *)
Theorem first_load_pass_through_page_wide p i m latlng :
  maps p !! i = Some m ->
  wrapped m = true ->
  isFirstMapLoad (globals p) = true ->
  maps (step LatLng p (SetCenter i latlng)) !! i =
    Some (originalSetCenter m latlng)
  /\ (isNull (argLat latlng) || isNull (argLng latlng) = false ->
      isFirstMapLoad (globals (step LatLng p (SetCenter i latlng))) = false
      /\ forall (m2 : MapInstance) (l2 : Arg),
           isDefaultCoords (argLat l2) (argLng l2) = true ->
           setCenter LatLng (globals (step LatLng p (SetCenter i latlng)))
             m2 l2 =
             (globals (step LatLng p (SetCenter i latlng)),
              match savedMapCenter
                      (globals (step LatLng p (SetCenter i latlng))) with
              | None => m2
              | Some (a, b) => originalSetCenter m2 (LatLng a b)
              end)).
Proof.
  intros Hi Hw Hf.
  rewrite (step_SetCenter_wrapped p i m latlng Hi Hw). simpl.
  split.
  - rewrite (lookup_insert_same _ _ _ _ Hi). f_equal.
    apply setCenter_first_load. exact Hf.
  - intros Hn.
    assert (Hflag :
      isFirstMapLoad (fst (setCenter LatLng (globals p) m latlng)) = false).
    { rewrite setCenter_flag_after, Hn. apply andb_false_r. }
    split; [exact Hflag|].
    intros m2 l2 Hd.
    destruct (savedMapCenter (fst (setCenter LatLng (globals p) m latlng)))
      as [[a b]|] eqn:Hs.
    + apply (setCenter_blocked _ m2 l2 a b Hflag Hs Hd).
    + apply (setCenter_blocked_empty _ m2 l2 Hflag Hs Hd).
Qed.

(** ** The monitor *)









(** A centre whose [lat] and [lng] are methods never passes the monitor's
    test: [currentCenter.lat || currentCenter.y] is the function, and line
    1121 computes NaN. *)
Lemma library_centre_needs_no_restore A B m c la ln :
  center m = Obj c ->
  c_lat c = Method la ->
  c_lng c = Method ln ->
  needsRestore A B m = false.
Proof.
  intros Hc Hlat Hlng. unfold needsRestore. rewrite Hc, Hlat, Hlng.
  unfold logicalOr. cbn [ToBoolean]. rewrite method_not_default.
  now rewrite !andb_false_r.
Qed.

(** ** Network calls *)

(** C9 (as amended) -- the script puts nothing around the page's
    network-request primitives: a run of [fetch] and [XMLHttpRequest] calls,
    whatever their URLs, leaves the saved centre, the flag and every map as
    they were; no reconciliation is run for them, and a map sitting on the
    default stays there until the periodic monitor fires. *)
Theorem network_calls_trigger_nothing p es :
  forallb isNetworkCall es = true ->
  run LatLng p es = p.
Proof.
  revert p. induction es as [|e es IH]; intros p H; simpl in *.
  - reflexivity.
  - apply andb_true_iff in H as [He Hes].
    destruct e; simpl in He; try discriminate; simpl; now apply IH.
Qed.

(** ** The invariant of the saved centre *)

(** The saved centre is only ever filled by a call that clears the flag. *)
Lemma setCenter_flag g m latlng :
  (savedMapCenter g <> None -> isFirstMapLoad g = false) ->
  savedMapCenter (fst (setCenter LatLng g m latlng)) <> None ->
  isFirstMapLoad (fst (setCenter LatLng g m latlng)) = false.
Proof.
  unfold setCenter. intros H.
  destruct (isNull (argLat latlng) || isNull (argLng latlng)); [exact H|].
  destruct (isFirstMapLoad g) eqn:Hf; [reflexivity|].
  destruct (savedMapCenter g) as [[a b]|];
    destruct (isDefaultCoords (argLat latlng) (argLng latlng)); simpl; auto.
Qed.

(** X1 -- in every state the page can reach from the script's start, a
    non-empty saved centre means that the first-load flag has been consumed: the
    blocking branch is never shadowed by the first-load branch. *)
Theorem saved_center_implies_flag_consumed (es : list Event) :
  flagConsumedWhenSaved (globals (run LatLng initialPage es)) = true.
Proof.
  apply (run_keeps (fun g => flagConsumedWhenSaved g = true));
    [|reflexivity].
  intros g m latlng H. unfold flagConsumedWhenSaved in *.
  destruct (savedMapCenter (fst (setCenter LatLng g m latlng))) eqn:Hs;
    [|reflexivity].
  apply negb_true_iff. apply setCenter_flag.
  - destruct (savedMapCenter g); [|congruence].
    intros _. now apply negb_true_iff in H.
  - congruence.
Qed.


End Wrapper.

End InterceptorProofs.

(** * Properties of the receive handler of [web/gps-receiver.js] *)
Module GpsProofs.
Import JS Engine GpsReceiver.

Section Handler.

Variable M : MathLib.

Lemma gpsState_updateMapCenter p lat lng :
  gpsState (updateMapCenter M p lat lng) = gpsState p.
Proof.
  unfold updateMapCenter.
  destruct (negb (naverAvailable p)); [reflexivity|].
  destruct (mapContainer p) as [[map|]|]; try reflexivity.
  destruct (autoFollowLocation p) as [[|]|]; try reflexivity;
    destruct (hasGetCenter map); try reflexivity;
    match goal with |- context [if ?b then _ else _] => destruct b end;
    reflexivity.
Qed.

Lemma gpsState_notifyAll p d : gpsState (notifyAll p d) = gpsState p.
Proof. reflexivity. Qed.

Lemma mapContainer_notifyAll p d : mapContainer (notifyAll p d) = mapContainer p.
Proof. reflexivity. Qed.

(** Lines 79-82: a payload that fails the validation changes nothing. *)
Lemma handle_rejected p locationData :
  accepted locationData = false ->
  handleLocationUpdate M p locationData = (p, Returned).
Proof.
  destruct locationData as [d|]; simpl; [|reflexivity].
  unfold handleLocationUpdate.
  destruct (latitude d); simpl; intros H; try reflexivity. discriminate.
Qed.

(** Lines 85-87: a payload that passes the validation becomes the store. *)
Lemma handle_accepted p d :
  accepted (Some d) = true ->
  gpsState (fst (handleLocationUpdate M p (Some d))) =
    mkGpsState true (Some d) (updateCount (gpsState p) + 1)
      (listeners (gpsState p)).
Proof.
  simpl. unfold handleLocationUpdate.
  destruct (latitude d) as [| |lat|r]; simpl; intros H; try discriminate.
  destruct (longitude d) as [| |lng|r]; simpl; try reflexivity.
  rewrite gpsState_updateMapCenter. reflexivity.
Qed.

Lemma deliverAll_snoc p ds d :
  deliverAll M p (ds ++ [d]) =
    fst (handleLocationUpdate M (deliverAll M p ds) (Some d)).
Proof. unfold deliverAll. rewrite fold_left_app. reflexivity. Qed.

Lemma deliverAll_cons p d ds :
  deliverAll M p (d :: ds) =
  deliverAll M (fst (handleLocationUpdate M p (Some d))) ds.
Proof. reflexivity. Qed.

Lemma lastAccepted_snoc ds d :
  lastAccepted (ds ++ [d]) =
    if accepted (Some d) then Some d else lastAccepted ds.
Proof.
  induction ds as [|d0 ds IH]; simpl.
  - destruct (isNumber (latitude d)); reflexivity.
  - rewrite IH. simpl.
    destruct (isNumber (latitude d)); [reflexivity|].
    destruct (lastAccepted ds); reflexivity.
Qed.

(** C2 (as amended) -- the store holds the last accepted sample.  The handler
    compares no timestamps: after any sequence of deliveries the store holds
    the last payload of the sequence that passes the validation, whatever the
    timestamps, and what it held before when no payload of the sequence
    passes.  So an accepted payload always replaces the store, and a rejected
    one leaves it as it is. *)
Theorem store_holds_last_accepted_sample ds : forall p,
  lastLocation (gpsState (deliverAll M p ds)) =
    match lastAccepted ds with
    | Some d => Some d
    | None => lastLocation (gpsState p)
    end
  /\ (forall d,
        lastLocation (gpsState (deliverAll M p (ds ++ [d]))) =
          if accepted (Some d) then Some d
          else lastLocation (gpsState (deliverAll M p ds))).
Proof.
  assert (Hall : forall ds p,
    lastLocation (gpsState (deliverAll M p ds)) =
      match lastAccepted ds with
      | Some d => Some d
      | None => lastLocation (gpsState p)
      end).
  { clear ds. induction ds as [|d ds IH]; intros p; [reflexivity|].
    rewrite deliverAll_cons, IH. cbn [lastAccepted].
    destruct (lastAccepted ds) as [d'|]; [reflexivity|].
    destruct (accepted (Some d)) eqn:Ha.
    - now rewrite (handle_accepted p d Ha).
    - now rewrite (handle_rejected p (Some d) Ha). }
  intros p. split; [apply Hall|].
  intros d. rewrite !Hall, lastAccepted_snoc.
  destruct (accepted (Some d)); reflexivity.
Qed.

(** The map after [updateMapCenter], gate by gate. *)
Lemma updateMapCenter_open p lat lng map :
  naverAvailable p = true ->
  mapContainer p = Some (Some map) ->
  autoFollowLocation p <> Some false ->
  hasGetCenter map = true ->
  mapContainer (updateMapCenter M p lat lng) =
    Some (Some (if 50 <? calculateDistance M (fst (mapCenter map))
                           (snd (mapCenter map)) lat lng
                then mapSetCenter map (lat, lng) else map)).
Proof.
  intros Hn Hc Ha Hg. unfold updateMapCenter. rewrite Hn, Hc, Hg. simpl.
  destruct (autoFollowLocation p) as [[|]|]; try congruence;
    match goal with |- context [if ?b then _ else _] => destruct b end;
    simpl; auto.
Qed.

Lemma updateMapCenter_closed p lat lng :
  naverAvailable p = false
  \/ autoFollowLocation p = Some false
  \/ (forall map, mapContainer p = Some (Some map) -> hasGetCenter map = false) ->
  updateMapCenter M p lat lng = p.
Proof.
  intros H. unfold updateMapCenter.
  destruct (naverAvailable p) eqn:Hn; simpl; [|reflexivity].
  destruct (mapContainer p) as [[map|]|] eqn:Hc; try reflexivity.
  destruct H as [H|[H|H]]; [discriminate| |].
  - rewrite H. reflexivity.
  - rewrite (H map eq_refl). destruct (autoFollowLocation p) as [[|]|]; reflexivity.
Qed.

(** C8 (as amended) -- the reconciliation after an accepted sample is gated.
    For an accepted sample with numeric coordinates the handler runs
    [updateMapCenter] at once, after the callbacks, and returns what that call
    leaves.  On the page [q] that the call finds: with the library loaded, a
    map with [getCenter] exposed by the first matched container and
    auto-follow not switched off, the map is re-centred on the sample exactly
    when the sample lies more than 50 metres from the centre shown; with the
    library missing, auto-follow switched off, or no such map exposed, the
    call changes nothing, whatever the distance. *)
Theorem reconciliation_after_sample_is_gated p d lat lng :
  latitude d = Number lat ->
  longitude d = Number lng ->
  handleLocationUpdate M p (Some d) =
    (updateMapCenter M
       (notifyAll
          (withGpsState p
             (mkGpsState true (Some d) (updateCount (gpsState p) + 1)
                (listeners (gpsState p)))) d) lat lng, Returned)
  /\ (forall q map,
        naverAvailable q = true ->
        mapContainer q = Some (Some map) ->
        autoFollowLocation q <> Some false ->
        hasGetCenter map = true ->
        mapContainer (updateMapCenter M q lat lng) =
          Some (Some (if 50 <? calculateDistance M (fst (mapCenter map))
                                 (snd (mapCenter map)) lat lng
                      then mapSetCenter map (lat, lng) else map)))
  /\ (forall q,
        naverAvailable q = false
        \/ autoFollowLocation q = Some false
        \/ (forall map,
              mapContainer q = Some (Some map) -> hasGetCenter map = false) ->
        updateMapCenter M q lat lng = q).
Proof.
  intros Hlat Hlng. split; [|split].
  - unfold handleLocationUpdate. rewrite Hlat, Hlng. reflexivity.
  - intros q map Hn Hc Ha Hg. apply updateMapCenter_open; assumption.
  - intros q Hclosed. apply updateMapCenter_closed. exact Hclosed.
Qed.

End Handler.

End GpsProofs.

(** * Invalid coordinates, on both sides of the bridge *)
Module BridgeProofs.
Import JS Engine.

(** C6 (as amended) -- what the two scripts do with invalid coordinates.  The
    receive handler discards, with no change of state, exactly the payloads
    that are missing or whose latitude is not a number; any other payload
    becomes the store, with no test of its longitude or of any range.  The
    wrapper does not discard a [setCenter] call whose latitude or longitude
    cannot be read: it hands the call unchanged to the library and leaves the
    saved centre and the first-load flag as they were. *)
Theorem invalid_coordinates_handling :
  (forall M p locationData,
     GpsReceiver.accepted locationData = false ->
     GpsReceiver.handleLocationUpdate M p locationData = (p, GpsReceiver.Returned))
  /\ (forall M p d,
        GpsReceiver.accepted (Some d) = true ->
        GpsReceiver.lastLocation
          (GpsReceiver.gpsState (fst (GpsReceiver.handleLocationUpdate M p (Some d))))
          = Some d)
  /\ (forall LatLng g m latlng,
        isNull (Interceptor.argLat latlng) || isNull (Interceptor.argLng latlng) = true ->
        Interceptor.setCenter LatLng g m latlng =
          (g, Interceptor.originalSetCenter m latlng)).
Proof.
  split; [|split].
  - intros M p d H. now apply GpsProofs.handle_rejected.
  - intros M p d H. rewrite (GpsProofs.handle_accepted M p d H). reflexivity.
  - intros LatLng g m latlng H. now apply InterceptorProofs.setCenter_unreadable.
Qed.

End BridgeProofs.

(** * Concrete runs *)
Module Runs.
Import JS Engine.

Section InterceptorRuns.
Import Interceptor InterceptorProofs.

(** C1 at the page [fixedPage]: the saved centre is (37.5, 127.0) and page
    code calls [setCenter(new naver.maps.LatLng(37.566826, 126.9786567))].
    The library receives the default and the saved centre is lost. *)
Lemma library_default_run :
  maps (step libraryLatLng fixedPage (SetCenter 0 seoulLatLng)) !! 0%nat =
    Some (mkMap seoulLatLng true true ([fix375] ++ [seoulLatLng]))
  /\ savedMapCenter
       (globals (step libraryLatLng fixedPage (SetCenter 0 seoulLatLng))) =
     Some (Method DEFAULT_SEOUL_LAT, Method DEFAULT_SEOUL_LNG).
Proof.
  apply (library_default_is_not_blocked libraryLatLng fixedPage 0
           (mkMap fix375 true true [fix375])
           (mkCoord (Method DEFAULT_SEOUL_LAT) (Method DEFAULT_SEOUL_LNG)
              (Number DEFAULT_SEOUL_LNG) (Number DEFAULT_SEOUL_LAT))
           DEFAULT_SEOUL_LAT DEFAULT_SEOUL_LNG (Number 37.5) (Number 127.0));
    vm_compute; reflexivity.
Defined.

(** C4 at the page [loadedPage]: page code calls
    [setCenter(new naver.maps.LatLng(37.123, 127.456))].  The call reaches
    the library, two functions are saved, and a later call with the literal
    default is answered with [LatLng] of the two functions. *)
Lemma library_update_run :
  step libraryLatLng loadedPage (SetCenter 0 fix123LatLng) =
    mkPage (mkGlobals (Some (Method 37.123, Method 127.456)) false)
      (naverLoaded loadedPage) (interceptorInstalled loadedPage)
      (<[0%nat := originalSetCenter (mkMap seoul true true [seoul])
                    fix123LatLng]> (maps loadedPage))
  /\ snd (setCenter libraryLatLng
            (globals (step libraryLatLng loadedPage (SetCenter 0 fix123LatLng)))
            (mkMap fix123LatLng true true [seoul; fix123LatLng]) seoul) =
     originalSetCenter (mkMap fix123LatLng true true [seoul; fix123LatLng])
       (libraryLatLng (Method 37.123) (Method 127.456)).
Proof.
  destruct (library_update_saves_methods libraryLatLng loadedPage 0
              (mkMap seoul true true [seoul])
              (mkCoord (Method 37.123) (Method 127.456)
                 (Number 127.456) (Number 37.123))
              37.123 127.456) as [H1 H2];
    try (vm_compute; reflexivity).
  split; [exact H1|].
  apply (H2 (mkMap fix123LatLng true true [seoul; fix123LatLng]) seoul).
  vm_compute. reflexivity.
Defined.

(** C5: the map's first call is made without an argument; it goes through,
    the saved centre stays [null] and the flag stays set, so the next call,
    with the default, reaches the library as well. *)
Lemma unreadable_first_call_keeps_flag :
  maps (run libraryLatLng oneMapPage [SetCenter 0 Nullish]) !! 0%nat =
    Some (mkMap Nullish true true [Nullish])
  /\ globals (run libraryLatLng oneMapPage [SetCenter 0 Nullish]) =
       mkGlobals None true
  /\ maps (run libraryLatLng oneMapPage [SetCenter 0 Nullish; SetCenter 0 seoul])
       !! 0%nat =
     Some (mkMap seoul true true [Nullish; seoul]).
Proof. vm_compute. repeat split; reflexivity. Qed.

(** C5 as amended, at the page [loadedPage]: the flag is cleared, nothing is
    saved yet and the page calls [setCenter] with the default again. *)
Lemma empty_store_blocking_witness :
  step libraryLatLng loadedPage (SetCenter 0 seoul) = loadedPage
  /\ maps (step libraryLatLng loadedPage (SetCenter 0 seoul)) !! 0%nat
       = Some (mkMap seoul true true [seoul])
  /\ savedMapCenter (globals (step libraryLatLng loadedPage (SetCenter 0 seoul)))
       = None.
Proof.
  apply (proj2 (empty_store_default_blocking libraryLatLng loadedPage 0
                  (mkMap seoul true true [seoul]) seoul eq_refl eq_refl));
    vm_compute; reflexivity.
Defined.

(** C3: two maps.  The first map's first call, with the default, goes
    through; the second map is built afterwards and its own first call, with
    the default, is blocked: the library's [setCenter] is never called on it and
    it keeps the centre it was built with. *)
Lemma second_map_first_call_blocked :
  maps (run libraryLatLng loadedPage [NewMap busan true; SetCenter 1 seoul]) !! 0%nat
    = Some (mkMap seoul true true [seoul])
  /\ maps (run libraryLatLng loadedPage [NewMap busan true]) !! 1%nat
       = Some (mkMap busan true true [])
  /\ maps (run libraryLatLng loadedPage [NewMap busan true; SetCenter 1 seoul]) !! 1%nat
       = Some (mkMap busan true true []).
Proof. vm_compute. repeat split; reflexivity. Qed.

(** C3 as amended, at the page [oneMapPage]: the first call, with the
    default, goes through and clears the flag; a call with the default on a
    map built afterwards is then blocked. *)
Lemma first_load_pass_through_witness :
  maps (step libraryLatLng oneMapPage (SetCenter 0 seoul)) !! 0%nat
    = Some (originalSetCenter (mkMap busan true true []) seoul)
  /\ isFirstMapLoad (globals (step libraryLatLng oneMapPage (SetCenter 0 seoul)))
       = false
  /\ setCenter libraryLatLng
       (globals (step libraryLatLng oneMapPage (SetCenter 0 seoul)))
       (mkMap busan true true []) seoul =
     (globals (step libraryLatLng oneMapPage (SetCenter 0 seoul)),
      mkMap busan true true []).
Proof.
  destruct (first_load_pass_through_page_wide libraryLatLng oneMapPage 0
              (mkMap busan true true []) seoul) as [H1 H2];
    try (vm_compute; reflexivity).
  destruct H2 as [H2 H3]; [vm_compute; reflexivity|].
  split; [exact H1|]. split; [exact H2|].
  apply (H3 (mkMap busan true true []) seoul). vm_compute. reflexivity.
Defined.



(** C9: the map of [resetPage] sits on the default; a [fetch] of a category
    URL and an [XMLHttpRequest] for it leave the page as it is, and only the
    periodic monitor moves the map back. *)
Lemma category_request_restores_nothing :
  maps resetPage !! 0%nat = Some (mkMap seoul true true [fix375])
  /\ step libraryLatLng resetPage (Fetch categoryUrl) = resetPage
  /\ step libraryLatLng resetPage (XhrOpen categoryUrl) = resetPage
  /\ maps (step libraryLatLng resetPage MonitorTick) !! 0%nat
       = Some (mkMap (libraryLatLng (Number 37.5) (Number 127.0)) true true
                 [fix375; libraryLatLng (Number 37.5) (Number 127.0)]).
Proof. vm_compute. repeat split; reflexivity. Qed.

(** C9 as amended, at the page [resetPage]. *)
Lemma network_calls_witness :
  run libraryLatLng resetPage [Fetch categoryUrl; XhrOpen categoryUrl] = resetPage.
Proof.
  apply (network_calls_trigger_nothing libraryLatLng resetPage
           [Fetch categoryUrl; XhrOpen categoryUrl]).
  reflexivity.
Defined.


End InterceptorRuns.

Section GpsRuns.
Import GpsReceiver GpsProofs.

(** C2: the sample stamped 900 arrives after the sample stamped 1000 and
    replaces it. *)
Lemma stale_sample_overwrites :
  lastLocation (gpsState (deliverAll seriesMath emptyPage [sample1000]))
    = Some sample1000
  /\ lastLocation
       (gpsState (deliverAll seriesMath emptyPage [sample1000; sample900]))
       = Some sample900
  /\ timestamp sample1000 = Number 1000
  /\ timestamp sample900 = Number 900.
Proof. vm_compute. repeat split; reflexivity. Qed.

(** C2 as amended: the stale sample replaces the fresh one, and the payload
    without latitude that follows leaves it in the store. *)
Lemma last_accepted_sample_witness :
  lastLocation
    (gpsState
       (deliverAll seriesMath emptyPage [sample1000; sample900; noLatitude]))
    = Some sample900.
Proof.
  exact (proj1 (store_holds_last_accepted_sample seriesMath
                  [sample1000; sample900; noLatitude] emptyPage)).
Defined.

(** C8: a sample about eleven metres from the centre shown is accepted and
    stored, and the map is not re-centred. *)
Lemma nearby_sample_does_not_recentre :
  lastLocation (gpsState (fst (handleLocationUpdate seriesMath mapPage (Some nearby))))
    = Some nearby
  /\ mapContainer (fst (handleLocationUpdate seriesMath mapPage (Some nearby)))
       = Some (Some (mkNaverMap (37.5, 127.0) true []))
  /\ (50 <? calculateDistance seriesMath 37.5 127.0 37.5001 127.0) = false.
Proof. vm_compute. repeat split; reflexivity. Qed.

(** C8 as amended: the sample at (37.123, 127.456), some 58 km away, moves the
    map of [mapPage]; with auto-follow switched off on the same page the call
    of [updateMapCenter] changes nothing. *)
Lemma reconciliation_after_sample_witness :
  mapContainer (fst (handleLocationUpdate seriesMath mapPage (Some sample1000)))
    = Some (Some (mkNaverMap (37.123, 127.456) true [(37.123, 127.456)]))
  /\ updateMapCenter seriesMath
       (mkReceiverPage (mkGpsState false None 0 []) None (Some false) true
          (Some (Some (mkNaverMap (37.5, 127.0) true []))) [])
       37.123 127.456 =
     mkReceiverPage (mkGpsState false None 0 []) None (Some false) true
       (Some (Some (mkNaverMap (37.5, 127.0) true []))) [].
Proof.
  destruct (reconciliation_after_sample_is_gated seriesMath mapPage sample1000
              37.123 127.456 eq_refl eq_refl) as (Hcall & Hopen & Hclosed).
  split.
  - rewrite Hcall. cbn [fst].
    rewrite (Hopen
               (notifyAll
                  (withGpsState mapPage
                     (mkGpsState true (Some sample1000)
                        (updateCount (gpsState mapPage) + 1)
                        (listeners (gpsState mapPage)))) sample1000)
               (mkNaverMap (37.5, 127.0) true []));
      [vm_compute; reflexivity | reflexivity | reflexivity | discriminate
      | reflexivity].
  - apply Hclosed. right. left. reflexivity.
Defined.

End GpsRuns.

(** C6: a latitude of 999 is stored; a payload without longitude is stored
    too, before the handler's log line throws; a [setCenter] call without an
    argument reaches the library; and so does one at (999, 999), which also
    becomes the saved centre. *)
Lemma invalid_coordinates_get_through :
  GpsReceiver.lastLocation
    (GpsReceiver.gpsState
       (fst (GpsReceiver.handleLocationUpdate seriesMath GpsReceiver.emptyPage
               (Some GpsReceiver.latitude999))))
    = Some GpsReceiver.latitude999
  /\ GpsReceiver.handleLocationUpdate seriesMath GpsReceiver.emptyPage
       (Some GpsReceiver.noLongitude)
     = (GpsReceiver.mkReceiverPage
          (GpsReceiver.mkGpsState true (Some GpsReceiver.noLongitude) 1 [])
          None None false None [],
        GpsReceiver.Threw)
  /\ Interceptor.maps
       (Interceptor.step Interceptor.libraryLatLng Interceptor.fixedPage
          (Interceptor.SetCenter 0 Interceptor.Nullish)) !! 0%nat
     = Some (Interceptor.mkMap Interceptor.Nullish true true
               [Interceptor.fix375; Interceptor.Nullish])
  /\ Interceptor.step Interceptor.libraryLatLng Interceptor.fixedPage
       (Interceptor.SetCenter 0
          (Interceptor.Obj (Interceptor.mkCoord (Number 999) (Number 999)
                              Undefined Undefined)))
     = Interceptor.mkPage
         (Interceptor.mkGlobals (Some (Number 999, Number 999)) false) true true
         [Interceptor.mkMap
            (Interceptor.Obj (Interceptor.mkCoord (Number 999) (Number 999)
                                Undefined Undefined))
            true true
            [Interceptor.fix375;
             Interceptor.Obj (Interceptor.mkCoord (Number 999) (Number 999)
                                Undefined Undefined)]].
Proof. vm_compute. repeat split; reflexivity. Qed.

(** C6 as amended: a missing payload is dropped, a latitude of 999 is stored,
    a [setCenter] call without an argument is handed to the library. *)
Lemma invalid_coordinates_witness :
  GpsReceiver.handleLocationUpdate seriesMath GpsReceiver.mapPage None
    = (GpsReceiver.mapPage, GpsReceiver.Returned)
  /\ GpsReceiver.lastLocation
       (GpsReceiver.gpsState
          (fst (GpsReceiver.handleLocationUpdate seriesMath GpsReceiver.mapPage
                  (Some GpsReceiver.latitude999))))
     = Some GpsReceiver.latitude999
  /\ Interceptor.setCenter Interceptor.libraryLatLng
       (Interceptor.globals Interceptor.fixedPage)
       (Interceptor.mkMap Interceptor.fix375 true true [Interceptor.fix375])
       Interceptor.Nullish
     = (Interceptor.globals Interceptor.fixedPage,
        Interceptor.originalSetCenter
          (Interceptor.mkMap Interceptor.fix375 true true [Interceptor.fix375])
          Interceptor.Nullish).
Proof.
  destruct BridgeProofs.invalid_coordinates_handling as [H1 [H2 H3]].
  split; [|split].
  - apply H1. reflexivity.
  - apply H2. reflexivity.
  - apply H3. reflexivity.
Defined.

End Runs.

(** * The listener registry and the status API of [web/gps-receiver.js] *)
Module GpsListeners.
Import JS Engine GpsReceiver.

(** What page code hands to [addGPSListener] and [removeGPSListener]: a
    function, known by its identity, or any other value. *)
Inductive Callback : Type :=
| NotAFunction
| Function (id : nat).

Definition withListeners (p : ReceiverPage) (l : list nat) : ReceiverPage :=
  withGpsState p
    (mkGpsState (isTracking (gpsState p)) (lastLocation (gpsState p))
       (updateCount (gpsState p)) l).

(** [addGPSListener] (lines 119-124): [listeners.push(callback)] for a
    function, nothing otherwise. *)
Definition addGPSListener (p : ReceiverPage) (callback : Callback)
  : ReceiverPage :=
  match callback with
  | Function f => withListeners p (listeners (gpsState p) ++ [f])
  | NotAFunction => p
  end.

(** [listeners.indexOf(callback)] followed by [listeners.splice(index, 1)]
    when the index is not [-1]: the first occurrence goes. *)
Fixpoint spliceFirst (f : nat) (l : list nat) : list nat :=
  match l with
  | [] => []
  | g :: rest => if Nat.eqb g f then rest else g :: spliceFirst f rest
  end.

(** [removeGPSListener] (lines 129-135).  The array holds functions only, so
    [indexOf] of any other value is [-1]. *)
Definition removeGPSListener (p : ReceiverPage) (callback : Callback)
  : ReceiverPage :=
  match callback with
  | Function f =>
      if existsb (Nat.eqb f) (listeners (gpsState p))
      then withListeners p (spliceFirst f (listeners (gpsState p)))
      else p
  | NotAFunction => p
  end.

(** [getLastLocation] (lines 153-155). *)
Definition getLastLocation (p : ReceiverPage) : option LocationData :=
  lastLocation (gpsState p).

(** A [Date] object, known by the value its constructor was given. *)
Inductive DateObject : Type :=
| NewDate (value : Value).

(** The object returned by [getGPSStatus] (lines 160-167); [lastUpdateTime] is
    [new Date(lastLocation.timestamp)], or [None] for [null]. *)
Record GPSStatus : Type := mkStatus {
  status_isTracking : bool;
  status_updateCount : float;
  status_lastLocation : option LocationData;
  status_lastUpdateTime : option DateObject
}.

Definition getGPSStatus (p : ReceiverPage) : GPSStatus :=
  mkStatus (isTracking (gpsState p)) (updateCount (gpsState p))
    (lastLocation (gpsState p))
    (match lastLocation (gpsState p) with
     | Some d => Some (NewDate (timestamp d))
     | None => None
     end).

(** The callbacks a sample is handed to: the [onGPSUpdate] hook first, then
    every registration in order. *)
Definition recipients (p : ReceiverPage) (d : LocationData)
  : list (nat * LocationData) :=
  match onGPSUpdate p with Some f => [(f, d)] | None => [] end
  ++ map (fun f => (f, d)) (listeners (gpsState p)).

(** A payload whose latitude and longitude are both numbers. *)
Definition fullyNumeric (d : LocationData) : bool :=
  isNumber (latitude d) && isNumber (longitude d).

(** The store and the tracking flag agree, and a stored payload has passed the
    validation. *)
Definition storeConsistent (s : GpsState) : bool :=
  match lastLocation s with
  | Some d => isTracking s && isNumber (latitude d)
  | None => negb (isTracking s)
  end.

(** No delivery can move the map: the library is missing, auto-follow is
    switched off, or the first matched container exposes no map with
    [getCenter]. *)
Definition mapFrozen (p : ReceiverPage) : bool :=
  negb (naverAvailable p)
  || match autoFollowLocation p with Some false => true | _ => false end
  || match mapContainer p with
     | Some (Some map) => negb (hasGetCenter map)
     | _ => true
     end.

(** The centres the exposed map has been given so far. *)
Definition centresGiven (p : ReceiverPage) : list (float * float) :=
  match mapContainer p with
  | Some (Some map) => setCenterCalls map
  | _ => []
  end.

End GpsListeners.

Module GpsListenersProofs.
Import JS Engine GpsReceiver GpsListeners.

(** ** The registry *)

Lemma withListeners_same p : withListeners p (listeners (gpsState p)) = p.
Proof. destruct p as [[? ? ? ?] ? ? ? ? ?]. reflexivity. Qed.

Lemma withListeners_twice p l1 l2 :
  withListeners (withListeners p l1) l2 = withListeners p l2.
Proof. reflexivity. Qed.

Lemma listeners_withListeners p l : listeners (gpsState (withListeners p l)) = l.
Proof. reflexivity. Qed.

Lemma spliceFirst_fresh f l :
  existsb (Nat.eqb f) l = false -> spliceFirst f (l ++ [f]) = l.
Proof.
  induction l as [|g rest IH]; simpl; intros H.
  - rewrite Nat.eqb_refl. reflexivity.
  - apply orb_false_iff in H as [Hg Hrest].
    rewrite Nat.eqb_sym, Hg. f_equal. now apply IH.
Qed.

Lemma spliceFirst_absent f l :
  existsb (Nat.eqb f) l = false -> spliceFirst f l = l.
Proof.
  induction l as [|g rest IH]; simpl; intros H; [reflexivity|].
  apply orb_false_iff in H as [Hg Hrest].
  rewrite Nat.eqb_sym, Hg. f_equal. now apply IH.
Qed.

Lemma existsb_snoc f l : existsb (Nat.eqb f) (l ++ [f]) = true.
Proof.
  rewrite existsb_app. simpl. rewrite Nat.eqb_refl.
  now rewrite orb_true_r.
Qed.

(** X2 -- Removing a listener right after adding it gives back the page as it was,
    provided the callback was not registered before. *)
Theorem remove_undoes_add p f :
  existsb (Nat.eqb f) (listeners (gpsState p)) = false ->
  removeGPSListener (addGPSListener p (Function f)) (Function f) = p.
Proof.
  intros H. unfold removeGPSListener, addGPSListener.
  rewrite listeners_withListeners, existsb_snoc, (spliceFirst_fresh f _ H).
  rewrite withListeners_twice. apply withListeners_same.
Qed.

Lemma count_spliceFirst f g l :
  count_occ Nat.eq_dec (spliceFirst f l) g =
    (count_occ Nat.eq_dec l g - (if Nat.eqb f g then 1 else 0))%nat.
Proof.
  induction l as [|h rest IH]; simpl.
  - reflexivity.
  - destruct (Nat.eqb h f) eqn:Ehf.
    + apply Nat.eqb_eq in Ehf. subst h.
      destruct (Nat.eq_dec f g) as [->|Hne].
      * rewrite Nat.eqb_refl. lia.
      * apply Nat.eqb_neq in Hne. rewrite Hne. lia.
    + simpl. rewrite IH.
      destruct (Nat.eq_dec h g) as [->|Hne]; [|reflexivity].
      rewrite Nat.eqb_sym, Ehf. lia.
Qed.

Lemma others_spliceFirst f l :
  List.filter (fun g => negb (Nat.eqb g f)) (spliceFirst f l) =
  List.filter (fun g => negb (Nat.eqb g f)) l.
Proof.
  induction l as [|h rest IH]; simpl; [reflexivity|].
  destruct (Nat.eqb h f) eqn:E; simpl.
  - reflexivity.
  - rewrite E. simpl. now rewrite IH.
Qed.

Lemma spliceFirst_split f l1 l2 :
  existsb (Nat.eqb f) l1 = false ->
  spliceFirst f (l1 ++ f :: l2) = l1 ++ l2
  /\ existsb (Nat.eqb f) (l1 ++ f :: l2) = true.
Proof.
  induction l1 as [|g l1 IH]; simpl; intros H.
  - rewrite Nat.eqb_refl. auto.
  - apply orb_false_iff in H as [Hg Hrest].
    destruct (IH Hrest) as [IH1 IH2].
    rewrite Nat.eqb_sym, Hg, IH1, IH2. rewrite orb_true_r. auto.
Qed.

(** X3 -- one call of [removeGPSListener] takes away exactly the first
    registration of the callback, if there is one, and nothing else: when the
    callback first occurs after the listeners [l1], the listeners afterwards
    are [l1] followed by what came after that occurrence; so a callback
    registered twice is still registered once, every other callback keeps its
    registrations and their order, and removing a callback that is not
    registered changes nothing. *)
Theorem remove_takes_one_registration p f g :
  (forall l1 l2,
     listeners (gpsState p) = l1 ++ f :: l2 ->
     existsb (Nat.eqb f) l1 = false ->
     listeners (gpsState (removeGPSListener p (Function f))) = l1 ++ l2)
  /\ count_occ Nat.eq_dec
       (listeners (gpsState (removeGPSListener p (Function f)))) g =
       (count_occ Nat.eq_dec (listeners (gpsState p)) g
        - (if Nat.eqb f g then 1 else 0))%nat
  /\ List.filter (fun h => negb (Nat.eqb h f))
       (listeners (gpsState (removeGPSListener p (Function f)))) =
     List.filter (fun h => negb (Nat.eqb h f)) (listeners (gpsState p))
  /\ (existsb (Nat.eqb f) (listeners (gpsState p)) = false ->
      removeGPSListener p (Function f) = p).
Proof.
  split.
  { intros l1 l2 Hl Hfresh. unfold removeGPSListener. rewrite Hl.
    destruct (spliceFirst_split f l1 l2 Hfresh) as [-> ->]. reflexivity. }
  unfold removeGPSListener.
  destruct (existsb (Nat.eqb f) (listeners (gpsState p))) eqn:E; simpl.
  - rewrite count_spliceFirst, others_spliceFirst.
    repeat split. discriminate.
  - rewrite <- (spliceFirst_absent f _ E) at 1.
    rewrite count_spliceFirst. repeat split.
Qed.

(** ** What a delivery leaves alone, and what it appends *)

Section Deliveries.

Variable M : MathLib.

Ltac handle_cases d :=
  unfold handleLocationUpdate, updateMapCenter, notifyAll;
  destruct (latitude d) as [| |?lat|?r]; simpl; try reflexivity;
  destruct (longitude d) as [| |?lng|?r]; simpl; try reflexivity;
  repeat match goal with
         | |- context [match ?x with _ => _ end] =>
             match type of x with
             | bool => destruct x eqn:?
             | option _ => destruct x eqn:?
             end; simpl; try reflexivity; try congruence
         end.

Lemma handle_listeners p d :
  listeners (gpsState (fst (handleLocationUpdate M p (Some d)))) =
  listeners (gpsState p).
Proof. handle_cases d. Qed.

Lemma handle_onGPSUpdate p d :
  onGPSUpdate (fst (handleLocationUpdate M p (Some d))) = onGPSUpdate p.
Proof. handle_cases d. Qed.

Lemma handle_autoFollow p d :
  autoFollowLocation (fst (handleLocationUpdate M p (Some d))) =
  autoFollowLocation p.
Proof. handle_cases d. Qed.

Lemma handle_naverAvailable p d :
  naverAvailable (fst (handleLocationUpdate M p (Some d))) = naverAvailable p.
Proof. handle_cases d. Qed.

Lemma handle_notified p d :
  notified (fst (handleLocationUpdate M p (Some d))) =
  notified p ++ (if fullyNumeric d then recipients p d else []).
Proof.
  unfold fullyNumeric, recipients.
  handle_cases d; rewrite ?app_nil_r; reflexivity.
Qed.

Lemma handle_recipients p d d' :
  recipients (fst (handleLocationUpdate M p (Some d))) d' = recipients p d'.
Proof.
  unfold recipients. now rewrite handle_onGPSUpdate, handle_listeners.
Qed.

Lemma fold_add_listeners fs : forall p,
  listeners (gpsState (fold_left addGPSListener (map Function fs) p)) =
    listeners (gpsState p) ++ fs
  /\ onGPSUpdate (fold_left addGPSListener (map Function fs) p) = onGPSUpdate p
  /\ notified (fold_left addGPSListener (map Function fs) p) = notified p.
Proof.
  induction fs as [|f fs IH]; intros p; simpl.
  - now rewrite app_nil_r.
  - destruct (IH (withListeners p (listeners (gpsState p) ++ [f])))
      as (Hl & Hh & Hn).
    rewrite Hl, Hh, Hn. simpl. now rewrite <- app_assoc.
Qed.

(** X4 -- Listeners are told in the order in which they were registered, once per
    registration, after the [onGPSUpdate] hook: for callbacks added one after
    the other with [addGPSListener], a sample with numeric coordinates is
    handed to the hook, to the listeners already there and then to the new
    ones in the order of the calls. *)
Theorem listeners_notified_in_registration_order p fs d :
  fullyNumeric d = true ->
  notified
    (fst (handleLocationUpdate M
            (fold_left addGPSListener (map Function fs) p) (Some d))) =
  notified p
  ++ match onGPSUpdate p with Some h => [(h, d)] | None => [] end
  ++ map (fun f => (f, d)) (listeners (gpsState p) ++ fs).
Proof.
  intros Hd. rewrite handle_notified, Hd. unfold recipients.
  destruct (fold_add_listeners fs p) as (Hl & Hh & Hn).
  now rewrite Hl, Hh, Hn.
Qed.

(** X5 -- Over any sequence of deliveries, the callbacks see exactly the samples
    whose latitude and longitude are both numbers, in order of arrival: a
    sample that the validation rejects, or one that is stored but lacks a
    numeric longitude, reaches no callback. *)
Theorem callbacks_see_fully_numeric_samples ds : forall p,
  notified (deliverAll M p ds) =
  notified p
  ++ flat_map (fun d => if fullyNumeric d then recipients p d else []) ds.
Proof.
  induction ds as [|d ds IH]; intros p.
  - simpl. now rewrite app_nil_r.
  - rewrite GpsProofs.deliverAll_cons, IH, handle_notified. cbn [flat_map].
    rewrite <- app_assoc. f_equal. f_equal.
    apply flat_map_ext. intros d'.
    destruct (fullyNumeric d'); [apply handle_recipients|reflexivity].
Qed.

Lemma handle_storeConsistent p d :
  storeConsistent (gpsState p) = true ->
  storeConsistent (gpsState (fst (handleLocationUpdate M p (Some d)))) = true.
Proof.
  intros H. destruct (accepted (Some d)) eqn:Ha.
  - rewrite (GpsProofs.handle_accepted M p d Ha). unfold storeConsistent.
    simpl. exact Ha.
  - now rewrite (GpsProofs.handle_rejected M p (Some d) Ha).
Qed.

(** X6 -- The status API stays coherent: along any sequence of deliveries to a page
    whose store is coherent (as the initial one is), [isTracking] is set
    exactly when a location is stored, and the stored location always has a
    numeric latitude. *)
Theorem store_stays_consistent ds : forall p,
  storeConsistent (gpsState p) = true ->
  storeConsistent (gpsState (deliverAll M p ds)) = true
  /\ status_isTracking (getGPSStatus (deliverAll M p ds)) =
       match getLastLocation (deliverAll M p ds) with
       | Some _ => true
       | None => false
       end.
Proof.
  induction ds as [|d ds IH]; intros p H.
  - simpl. split; [exact H|].
    unfold storeConsistent, getLastLocation in *. simpl.
    destruct (lastLocation (gpsState p)).
    + now apply andb_true_iff in H as [-> _].
    + now apply negb_true_iff in H.
  - rewrite GpsProofs.deliverAll_cons. apply IH. now apply handle_storeConsistent.
Qed.

Lemma handle_mapContainer_frozen p d :
  mapFrozen p = true ->
  mapContainer (fst (handleLocationUpdate M p (Some d))) = mapContainer p.
Proof.
  unfold mapFrozen, handleLocationUpdate, updateMapCenter, notifyAll.
  intros H.
  destruct (latitude d) as [| |lat|r]; simpl; try reflexivity.
  destruct (longitude d) as [| |lng|r]; simpl; try reflexivity.
  destruct (naverAvailable p); simpl in *; [|reflexivity].
  destruct (mapContainer p) as [[map|]|] eqn:Hc; simpl in *;
    try reflexivity; try congruence.
  destruct (autoFollowLocation p) as [[|]|]; simpl in *;
    try reflexivity; try congruence;
    destruct (hasGetCenter map); simpl in *; try discriminate;
    try reflexivity; congruence.
Qed.

Lemma handle_mapFrozen p d :
  mapFrozen p = true ->
  mapFrozen (fst (handleLocationUpdate M p (Some d))) = true.
Proof.
  intros H. unfold mapFrozen.
  rewrite handle_naverAvailable, handle_autoFollow,
    (handle_mapContainer_frozen p d H).
  exact H.
Qed.

(** X7 -- with auto-follow switched off -- or with the library missing, or
    no map with [getCenter] exposed by the first matched container -- and no
    callback registered (neither the [onGPSUpdate] hook nor a listener, which
    could move the map themselves), no sequence of deliveries moves the map:
    it is never re-centred, whatever the samples. *)
Theorem frozen_map_never_moves ds : forall p,
  onGPSUpdate p = None ->
  listeners (gpsState p) = [] ->
  mapFrozen p = true ->
  mapContainer (deliverAll M p ds) = mapContainer p
  /\ notified (deliverAll M p ds) = notified p.
Proof.
  induction ds as [|d ds IH]; intros p Hhook Hl H; [auto|].
  rewrite GpsProofs.deliverAll_cons.
  destruct (IH (fst (handleLocationUpdate M p (Some d)))) as [IH1 IH2].
  - now rewrite handle_onGPSUpdate.
  - now rewrite handle_listeners.
  - now apply handle_mapFrozen.
  - rewrite IH1, IH2, handle_notified. unfold recipients.
    rewrite Hhook, Hl. simpl.
    split; [now apply handle_mapContainer_frozen|].
    destruct (fullyNumeric d); now rewrite app_nil_r.
Qed.

Lemma handle_centresGiven p d :
  centresGiven (fst (handleLocationUpdate M p (Some d))) = centresGiven p
  \/ exists lat lng,
       latitude d = Number lat /\ longitude d = Number lng
       /\ centresGiven (fst (handleLocationUpdate M p (Some d))) =
            centresGiven p ++ [(lat, lng)].
Proof.
  unfold centresGiven, handleLocationUpdate, updateMapCenter, notifyAll.
  destruct (latitude d) as [| |lat|r]; simpl; auto.
  destruct (longitude d) as [| |lng|r]; simpl; auto.
  destruct (naverAvailable p); simpl; auto.
  destruct (mapContainer p) as [[map|]|] eqn:Hc; simpl; rewrite ?Hc; auto.
  destruct (autoFollowLocation p) as [[|]|]; simpl; rewrite ?Hc; auto;
    destruct (hasGetCenter map); simpl; rewrite ?Hc; auto;
    match goal with |- context [if ?b then _ else _] => destruct b end;
    simpl; rewrite ?Hc; auto; right; exists lat, lng; auto.
Qed.

(** X8 -- The receiver never centres the map on anything but a delivered sample:
    every centre the map has been given after a sequence of deliveries was
    either given before, or is the latitude and longitude of one of the
    samples delivered. *)
Theorem map_centred_only_on_delivered_samples ds : forall p c,
  In c (centresGiven (deliverAll M p ds)) ->
  In c (centresGiven p)
  \/ exists d, In d ds
       /\ latitude d = Number (fst c) /\ longitude d = Number (snd c).
Proof.
  induction ds as [|d ds IH]; intros p c Hc; [left; exact Hc|].
  rewrite GpsProofs.deliverAll_cons in Hc.
  destruct (IH _ c Hc) as [Hin|(d' & Hd' & Hlat & Hlng)].
  - destruct (handle_centresGiven p d) as [E|(lat & lng & Hlat & Hlng & E)];
      rewrite E in Hin.
    + left; exact Hin.
    + apply in_app_or in Hin as [Hin|Hin]; [left; exact Hin|].
      right. exists d. simpl in Hin. destruct Hin as [<-|[]].
      simpl. repeat split; auto.
  - right. exists d'. simpl. auto.
Qed.

End Deliveries.

End GpsListenersProofs.

(** * From the native side into the page

    The senders of the native side, the JSON transport, and the listener that
    the injected script of [app/index.tsx] installs for location messages
    (lines 910-972). *)
Module NativeBridge.
Import JS Engine GpsReceiver.

(** [JSON.parse(JSON.stringify(v))] for a property value: a finite number
    comes back as it was, except that [-0] is written [0]; [NaN] and the
    infinities are written [null]; a property holding [undefined] or a
    function is left out and reads back as [undefined]. *)
Definition viaJSON (v : Value) : Value :=
  match v with
  | Undefined => Undefined
  | Null => Null
  | Number f =>
      if is_nan f || is_infinity f then Null
      else if is_zero f then Number 0
      else Number f
  | Method _ => Undefined
  end.

(** [a ?? b] *)
Definition nullish (a b : Value) : Value :=
  match a with
  | Undefined | Null => b
  | _ => a
  end.

(** The [coords] and [timestamp] of a fix of the location provider. *)
Record LocationObject : Type := mkFix {
  coords_latitude : Value;
  coords_longitude : Value;
  coords_accuracy : Value;
  coords_heading : Value;
  fix_timestamp : Value
}.

(** A message of the native side as a page script parses it, by the
    properties that the two listeners read: [type], the [lat], [lng] and
    [heading] of the message itself, and [data]. *)
Record Wire : Type := mkWire {
  w_type : string;
  w_lat : Value;
  w_lng : Value;
  w_heading : Value;
  w_data : option LocationData
}.

(** [sendLocationToWebView] of the tracker component: the object
    [{ type: 'LOCATION_UPDATE', data: { latitude, longitude,
    accuracy: accuracy ?? 0, ..., timestamp } }] after
    [postMessage(JSON.stringify(update))]. *)
Definition sendLocationToWebView (location : LocationObject) : Wire :=
  mkWire "LOCATION_UPDATE" Undefined Undefined Undefined
    (Some (mkLocation
             (viaJSON (coords_latitude location))
             (viaJSON (coords_longitude location))
             (viaJSON (nullish (coords_accuracy location) (Number 0)))
             (viaJSON (fix_timestamp location)))).

(** The message of the position watcher and of [REQUEST_LOCATION]
    ([app/index.tsx] lines 214-238 and 610-633):
    [{ type: 'GPS_UPDATE', lat, lng, heading: heading ?? 0, ... }]; it has no
    [data] property. *)
Definition gpsUpdate (location : LocationObject) : Wire :=
  mkWire "GPS_UPDATE"
    (viaJSON (coords_latitude location))
    (viaJSON (coords_longitude location))
    (viaJSON (nullish (coords_heading location) (Number 0)))
    None.

(** What the listener of [web/gps-receiver.js] reads of a message:
    [message.type] and [message.data]. *)
Definition receiverReads (w : Wire) : Message := Json (w_type w) (w_data w).

(** A parsed message as the injected listener reads it: [data.type] when it is
    a string, [data.lat], [data.lng], [data.heading]. *)
Record LocationMessage : Type := mkMessage {
  m_type : option string;
  m_lat : Value;
  m_lng : Value;
  m_heading : Value
}.

(** What the listener injected by [app/index.tsx] reads of a message:
    [data.type], [data.lat], [data.lng] and [data.heading] of the message
    itself. *)
Definition injectedReads (w : Wire) : LocationMessage :=
  mkMessage (Some (w_type w)) (w_lat w) (w_lng w) (w_heading w).

(** [data.type === 'LOCATION_INIT' || data.type === 'LOCATION_UPDATE' ||
     data.type === 'GPS_UPDATE'] (line 919). *)
Definition isLocationType (t : option string) : bool :=
  match t with
  | Some s =>
      String.eqb s "LOCATION_INIT" || String.eqb s "LOCATION_UPDATE"
      || String.eqb s "GPS_UPDATE"
  | None => false
  end.

(** A function the page may define: absent, or present and either returning
    or throwing when called. *)
Inductive PageFunction : Type :=
| Absent
| Present (throws : bool).

(** What the listener and its retry read and write: [window.__updateMapFromRN]
    and [window.triggerWorkflow] of the page, [window.__pendingLocationUpdate],
    whether the interval [checkPendingUpdate] is still set, and the arguments
    the two page functions have been called with. *)
Record Injected : Type := mkInjected {
  updateMapFromRN : PageFunction;
  triggerWorkflow : PageFunction;
  pendingLocationUpdate : option LocationMessage;
  checkPendingUpdate : bool;
  updateCalls : list (Value * Value * Value);
  workflowCalls : list (Value * Value * Value)
}.

(** [(data.lat, data.lng, data.heading || 0)] *)
Definition updateArgs (data : LocationMessage) : Value * Value * Value :=
  (m_lat data, m_lng data, logicalOr (m_heading data) (Number 0)).

(** The listener of lines 912-954 on a parsed message.  A throw of
    [__updateMapFromRN] is caught next to the call; a throw of
    [triggerWorkflow] leaves through the outer [catch], before the update is
    queued. *)
Definition onLocationMessage (st : Injected) (data : LocationMessage)
  : Injected :=
  if isLocationType (m_type data) then
    match updateMapFromRN st with
    | Present _ =>
        mkInjected (updateMapFromRN st) (triggerWorkflow st)
          (pendingLocationUpdate st) (checkPendingUpdate st)
          (updateCalls st ++ [updateArgs data]) (workflowCalls st)
    | Absent =>
        match triggerWorkflow st with
        | Present true =>
            mkInjected (updateMapFromRN st) (triggerWorkflow st)
              (pendingLocationUpdate st) (checkPendingUpdate st)
              (updateCalls st)
              (workflowCalls st ++ [(m_lat data, m_lng data, m_heading data)])
        | Present false =>
            mkInjected (updateMapFromRN st) (triggerWorkflow st)
              (Some data) (checkPendingUpdate st)
              (updateCalls st)
              (workflowCalls st ++ [(m_lat data, m_lng data, m_heading data)])
        | Absent =>
            mkInjected (updateMapFromRN st) (triggerWorkflow st)
              (Some data) (checkPendingUpdate st)
              (updateCalls st) (workflowCalls st)
        end
    end
  else st.

(** The callback of [setInterval(..., 100)] (lines 957-965); it has no
    [try/catch], so a throw of [__updateMapFromRN] skips the two statements
    that empty the queue and clear the interval. *)
Definition checkPendingTick (st : Injected) : Injected :=
  if checkPendingUpdate st then
    match pendingLocationUpdate st, updateMapFromRN st with
    | Some data, Present true =>
        mkInjected (updateMapFromRN st) (triggerWorkflow st)
          (pendingLocationUpdate st) true
          (updateCalls st ++ [updateArgs data]) (workflowCalls st)
    | Some data, Present false =>
        mkInjected (updateMapFromRN st) (triggerWorkflow st)
          None false
          (updateCalls st ++ [updateArgs data]) (workflowCalls st)
    | _, _ => st
    end
  else st.

(** The callback of [setTimeout(..., 10000)] (lines 966-972). *)
Definition checkPendingTimeout (st : Injected) : Injected :=
  mkInjected (updateMapFromRN st) (triggerWorkflow st)
    (pendingLocationUpdate st) false (updateCalls st) (workflowCalls st).

(** What can happen: a message arrives ([Unreadable] when [JSON.parse]
    throws), the interval or the timeout fires, the page defines or removes
    one of its two functions. *)
Inductive BridgeEvent : Type :=
| Arrives (data : LocationMessage)
| Unreadable
| Tick
| TenSecondsPassed
| PageSetsUpdate (f : PageFunction)
| PageSetsWorkflow (f : PageFunction).

Definition bridgeStep (st : Injected) (e : BridgeEvent) : Injected :=
  match e with
  | Arrives data => onLocationMessage st data
  | Unreadable => st
  | Tick => checkPendingTick st
  | TenSecondsPassed => checkPendingTimeout st
  | PageSetsUpdate f =>
      mkInjected f (triggerWorkflow st) (pendingLocationUpdate st)
        (checkPendingUpdate st) (updateCalls st) (workflowCalls st)
  | PageSetsWorkflow f =>
      mkInjected (updateMapFromRN st) f (pendingLocationUpdate st)
        (checkPendingUpdate st) (updateCalls st) (workflowCalls st)
  end.

Definition bridgeRun (st : Injected) (es : list BridgeEvent) : Injected :=
  fold_left bridgeStep es st.

(** The listener right after the script has run, on a page that defines
    neither function yet. *)
Definition freshBridge : Injected :=
  mkInjected Absent Absent None true [] [].

(** The location messages among the events. *)
Definition arrivals (es : list BridgeEvent) : nat :=
  length (List.filter
            (fun e => match e with
                      | Arrives data => isLocationType (m_type data)
                      | _ => false
                      end) es).

(** No event makes a page function that throws. *)
Definition neverThrows (es : list BridgeEvent) : bool :=
  forallb (fun e => match e with
                    | PageSetsUpdate (Present true) => false
                    | _ => true
                    end) es.

(** No message is among the events. *)
Definition quiet (es : list BridgeEvent) : bool :=
  forallb (fun e => match e with
                    | Arrives _ => false
                    | _ => true
                    end) es.

End NativeBridge.

Module NativeBridgeProofs.
Import JS Engine GpsReceiver NativeBridge.

(** X9 -- A fix of the tracker component, sent with [sendLocationToWebView], is
    stored by the receiver when its latitude is a finite number -- with [-0]
    read back as [0] and a missing accuracy as [0] -- and is dropped without
    any change when its latitude is [NaN] or infinite, because JSON writes
    those as [null]. *)
Theorem tracker_fix_reaches_receiver (M : MathLib) p location la :
  coords_latitude location = Number la ->
  if is_nan la || is_infinity la
  then onMessage M p (receiverReads (sendLocationToWebView location)) = p
  else GpsListeners.getLastLocation
         (onMessage M p (receiverReads (sendLocationToWebView location))) =
       Some (mkLocation
               (Number (if is_zero la then 0 else la))
               (viaJSON (coords_longitude location))
               (viaJSON (nullish (coords_accuracy location) (Number 0)))
               (viaJSON (fix_timestamp location))).
Proof.
  intros Hla. unfold receiverReads, sendLocationToWebView, onMessage.
  cbn [w_type w_data].
  replace (String.eqb "LOCATION_UPDATE" "LOCATION_UPDATE") with true
    by reflexivity.
  cbv iota. rewrite Hla.
  destruct (is_nan la || is_infinity la) eqn:E.
  - rewrite GpsProofs.handle_rejected; [reflexivity|].
    unfold accepted, viaJSON. simpl. rewrite E. reflexivity.
  - unfold GpsListeners.getLastLocation.
    rewrite GpsProofs.handle_accepted.
    + unfold viaJSON at 1. rewrite E. simpl.
      destruct (is_zero la); reflexivity.
    + unfold accepted, viaJSON. simpl. rewrite E.
      destruct (is_zero la); reflexivity.
Qed.

(** X10 -- The two message formats of the repository do not meet.  Each listener
    understands its own sender only: the receiver of [web/gps-receiver.js]
    ignores every [GPS_UPDATE] message that [app/index.tsx] posts, and the
    listener injected by [app/index.tsx], given a [LOCATION_UPDATE] message of
    the tracker component, calls the page's [__updateMapFromRN] with
    [undefined] coordinates and heading [0], whatever the fix was; given the
    [GPS_UPDATE] message it passes the coordinates on. *)
Theorem message_formats_do_not_match (M : MathLib) p st t location :
  updateMapFromRN st = Present t ->
  onMessage M p (receiverReads (gpsUpdate location)) = p
  /\ updateCalls
       (onLocationMessage st (injectedReads (sendLocationToWebView location))) =
       updateCalls st ++ [(Undefined, Undefined, Number 0)]
  /\ updateCalls (onLocationMessage st (injectedReads (gpsUpdate location))) =
       updateCalls st
       ++ [(viaJSON (coords_latitude location),
            viaJSON (coords_longitude location),
            logicalOr (viaJSON (nullish (coords_heading location) (Number 0)))
              (Number 0))].
Proof.
  intros H. split; [reflexivity|].
  unfold onLocationMessage. simpl. rewrite H. split; reflexivity.
Qed.

(** ** The queue of the injected listener *)

Lemma arrivals_keep_absent ms : forall st,
  updateMapFromRN st = Absent ->
  triggerWorkflow st <> Present true ->
  updateMapFromRN (bridgeRun st (map Arrives ms)) = Absent
  /\ triggerWorkflow (bridgeRun st (map Arrives ms)) = triggerWorkflow st
  /\ checkPendingUpdate (bridgeRun st (map Arrives ms)) = checkPendingUpdate st
  /\ updateCalls (bridgeRun st (map Arrives ms)) = updateCalls st.
Proof.
  induction ms as [|m ms IH]; intros st Hu Hw; [auto|].
  simpl.
  assert (Hstep : updateMapFromRN (onLocationMessage st m) = Absent
                  /\ triggerWorkflow (onLocationMessage st m) = triggerWorkflow st
                  /\ checkPendingUpdate (onLocationMessage st m) = checkPendingUpdate st
                  /\ updateCalls (onLocationMessage st m) = updateCalls st).
  { unfold onLocationMessage. rewrite Hu.
    destruct (isLocationType (m_type m)); [|auto].
    destruct (triggerWorkflow st) as [|[|]]; simpl; auto. }
  destruct Hstep as (H1 & H2 & H3 & H4).
  destruct (IH (onLocationMessage st m) H1) as (I1 & I2 & I3 & I4).
  - now rewrite H2.
  - unfold bridgeRun in *. simpl. rewrite I1, I2, I3, I4. auto.
Qed.

(** X11 -- Only the latest queued update survives.  While the page has not defined
    [__updateMapFromRN], every location message replaces the one queued
    before; when the page then defines the function and the interval fires,
    the function is called once, with the last message, and the retry stops:
    the earlier messages are never applied. *)
Theorem latest_queued_update_wins st ms m :
  updateMapFromRN st = Absent ->
  triggerWorkflow st <> Present true ->
  checkPendingUpdate st = true ->
  isLocationType (m_type m) = true ->
  updateCalls
    (bridgeRun st
       (map Arrives ms ++ [Arrives m; PageSetsUpdate (Present false); Tick])) =
    updateCalls st ++ [updateArgs m]
  /\ pendingLocationUpdate
       (bridgeRun st
          (map Arrives ms ++ [Arrives m; PageSetsUpdate (Present false); Tick])) =
       None
  /\ checkPendingUpdate
       (bridgeRun st
          (map Arrives ms ++ [Arrives m; PageSetsUpdate (Present false); Tick])) =
       false.
Proof.
  intros Hu Hw Hc Hm. unfold bridgeRun. rewrite fold_left_app.
  destruct (arrivals_keep_absent ms st Hu Hw) as (I1 & I2 & I3 & I4).
  unfold bridgeRun in *.
  set (st1 := fold_left bridgeStep (map Arrives ms) st) in *.
  simpl. unfold onLocationMessage. rewrite Hm, I1.
  destruct (triggerWorkflow st1) as [|[|]] eqn:Ew;
    [| exfalso; apply Hw; congruence |];
    unfold checkPendingTick; simpl; rewrite I3, Hc; simpl; rewrite I4; auto.
Qed.

Definition queued (st : Injected) : nat :=
  match pendingLocationUpdate st with Some _ => 1 | None => 0 end.

Lemma step_at_most_once st e :
  updateMapFromRN st <> Present true ->
  neverThrows [e] = true ->
  updateMapFromRN (bridgeStep st e) <> Present true
  /\ (length (updateCalls (bridgeStep st e)) + queued (bridgeStep st e)
      <= length (updateCalls st) + queued st + arrivals [e])%nat.
Proof.
  intros Hu He. unfold queued, arrivals.
  destruct e as [m| | | |f|f]; simpl in *.
  - unfold onLocationMessage.
    destruct (isLocationType (m_type m)); simpl; [|split; [auto|lia]].
    destruct (updateMapFromRN st) as [|t] eqn:Eu; simpl.
    + destruct (triggerWorkflow st) as [|[|]]; simpl; rewrite ?Eu;
        (split; [congruence|]);
        destruct (pendingLocationUpdate st); simpl; lia.
    + rewrite ?Eu. split; [auto|]. rewrite length_app. simpl.
      destruct (pendingLocationUpdate st); simpl; lia.
  - split; [auto|lia].
  - unfold checkPendingTick.
    destruct (checkPendingUpdate st); [|split; [auto|lia]].
    destruct (pendingLocationUpdate st) as [m|] eqn:Ep;
      [|rewrite Ep; split; [auto|simpl; lia]].
    destruct (updateMapFromRN st) as [|[|]] eqn:Eu; simpl;
      rewrite ?Eu, ?Ep; try (split; [congruence|simpl; lia]).
    + exfalso. apply Hu. reflexivity.
    + split; [congruence|]. rewrite length_app. simpl. lia.
  - split; [auto|lia].
  - split; [|lia]. destruct f as [|[|]]; try discriminate; congruence.
  - split; [auto|lia].
Qed.

Lemma arrivals_cons e es : arrivals (e :: es) = (arrivals [e] + arrivals es)%nat.
Proof.
  unfold arrivals. simpl.
  destruct e as [m| | | | |]; simpl; try reflexivity.
  destruct (isLocationType (m_type m)); reflexivity.
Qed.

(** X12 -- No update is applied twice.  As long as the page's [__updateMapFromRN]
    does not throw, along any sequence of messages, timer callbacks and page
    definitions the number of calls of [__updateMapFromRN], plus one if an
    update is still queued, never exceeds what it was at the start plus the
    number of location messages that arrived. *)
Theorem no_update_applied_twice es : forall st,
  updateMapFromRN st <> Present true ->
  neverThrows es = true ->
  (length (updateCalls (bridgeRun st es)) + queued (bridgeRun st es)
   <= length (updateCalls st) + queued st + arrivals es)%nat.
Proof.
  induction es as [|e es IH]; intros st Hu He.
  - simpl. unfold arrivals. simpl. lia.
  - assert (He1 : neverThrows [e] = true /\ neverThrows es = true).
    { unfold neverThrows in *. simpl in *.
      apply andb_true_iff in He as [H1 H2]. rewrite H1. auto. }
    destruct He1 as [He1 Hes].
    destruct (step_at_most_once st e Hu He1) as [Hu' Hle].
    specialize (IH (bridgeStep st e) Hu' Hes).
    rewrite arrivals_cons. unfold bridgeRun in *. simpl. lia.
Qed.

(** X13 -- A throwing [__updateMapFromRN] is called again on every firing of the
    interval: the callback has no [try/catch], so after a throw the queue is
    not emptied and the interval is not cleared, and [n] firings call the
    function [n] times with the same queued update. *)
Theorem throwing_handler_is_retried_every_tick n : forall st m,
  checkPendingUpdate st = true ->
  pendingLocationUpdate st = Some m ->
  updateMapFromRN st = Present true ->
  bridgeRun st (repeat Tick n) =
    mkInjected (Present true) (triggerWorkflow st) (Some m) true
      (updateCalls st ++ repeat (updateArgs m) n) (workflowCalls st).
Proof.
  induction n as [|n IH]; intros st m Hc Hp Hu.
  - simpl. rewrite app_nil_r. destruct st; simpl in *. congruence.
  - simpl. unfold bridgeRun in *. simpl.
    unfold checkPendingTick at 1. rewrite Hc, Hp, Hu.
    rewrite (IH _ m); try reflexivity. simpl.
    now rewrite <- app_assoc.
Qed.

(** X14 -- Once the retry has stopped -- after it has applied a queued update or
    after the ten seconds -- the timers never call [__updateMapFromRN] again:
    whatever the page defines afterwards, an update queued at that moment or
    later stays in the queue until a new message arrives. *)
Theorem stopped_retry_never_applies_queue es : forall st,
  checkPendingUpdate st = false ->
  quiet es = true ->
  updateCalls (bridgeRun st es) = updateCalls st
  /\ pendingLocationUpdate (bridgeRun st es) = pendingLocationUpdate st
  /\ checkPendingUpdate (bridgeRun st es) = false.
Proof.
  induction es as [|e es IH]; intros st Hc Hq; [auto|].
  unfold quiet in Hq. simpl in Hq. apply andb_true_iff in Hq as [He Hes].
  unfold bridgeRun in *. simpl.
  assert (Hstep : updateCalls (bridgeStep st e) = updateCalls st
                  /\ pendingLocationUpdate (bridgeStep st e) = pendingLocationUpdate st
                  /\ checkPendingUpdate (bridgeStep st e) = false).
  { destruct e; simpl in *; try discriminate; auto.
    unfold checkPendingTick. rewrite Hc. auto. }
  destruct Hstep as (H1 & H2 & H3).
  destruct (IH (bridgeStep st e) H3 Hes) as (I1 & I2 & I3).
  rewrite I1, I2, I3, H1, H2. auto.
Qed.

End NativeBridgeProofs.

(** * Deep links and navigation ([app/index.tsx])

    URLs are strings of code units below 256. *)
Module DeepLinks.
Import Ascii String.
Local Open Scope string_scope.

(** [KAKAO_CLIENT_ID] and [KAKAO_NATIVE_APP_KEY] (lines 27 and 29). *)
Definition KAKAO_CLIENT_ID : string := "734ac84c6c99e27b030a2d8006c9761e".
Definition KAKAO_NATIVE_APP_KEY : string := "d6914396676906ad440f0d308ed139d1".

(** [s.startsWith(pre)] *)
Fixpoint startsWith (s pre : string) {struct pre} : bool :=
  match pre with
  | EmptyString => true
  | String a pre' =>
      match s with
      | EmptyString => false
      | String c s' => Ascii.eqb c a && startsWith s' pre'
      end
  end.

(** [s.includes(needle)] *)
Fixpoint includes (s needle : string) : bool :=
  startsWith s needle
  || match s with
     | EmptyString => false
     | String _ rest => includes rest needle
     end.

Definition isDigit (c : ascii) : bool :=
  (48 <=? nat_of_ascii c)%nat && (nat_of_ascii c <=? 57)%nat.

Definition isLower (c : ascii) : bool :=
  (97 <=? nat_of_ascii c)%nat && (nat_of_ascii c <=? 122)%nat.

Definition isUpper (c : ascii) : bool :=
  (65 <=? nat_of_ascii c)%nat && (nat_of_ascii c <=? 90)%nat.

(** The class [[a-z0-9]] under the flag [i]. *)
Definition alnumIgnoreCase (c : ascii) : bool :=
  isLower c || isDigit c || isUpper c.

Definition toLower (c : ascii) : ascii :=
  if isUpper c then ascii_of_nat (nat_of_ascii c + 32) else c.

(** A literal matched at the start of [s] under the flag [i]: what follows it,
    if it matches. *)
Fixpoint literalIgnoreCase (lit s : string) {struct lit} : option string :=
  match lit with
  | EmptyString => Some s
  | String a lit' =>
      match s with
      | EmptyString => None
      | String c s' =>
          if Ascii.eqb (toLower c) (toLower a)
          then literalIgnoreCase lit' s'
          else None
      end
  end.

(** [[class]*] followed by the rest of the pattern [k], as a backtracking
    matcher runs it: the star takes as many characters as it can and gives
    them back one at a time while [k] fails. *)
Fixpoint classStarThen (class : ascii -> bool) (k : string -> bool)
  (s : string) : bool :=
  match s with
  | String c s' => if class c then classStarThen class k s' || k s else k s
  | EmptyString => k s
  end.

(** [/^kakao[a-z0-9]*:\/\//i.test(url)] of the native side (line 1232). *)
Definition kakaoSchemeRegex (u : string) : bool :=
  match literalIgnoreCase "kakao" u with
  | Some rest => classStarThen alnumIgnoreCase (fun s => startsWith s "://") rest
  | None => false
  end.

(** [isKakaoScheme] as the web view runs it (lines 981-986).  The script is
    the value of an untagged template literal (line 879), in which the escape
    [\/] stands for [/]; line 984 therefore reaches the page as
    [return /^kakao[a-z0-9]*:///i.test(u) || ...], that is, the
    regular-expression literal [/^kakao[a-z0-9]*:/] followed by a line
    comment.  For an argument that passes the test of line 982 the function
    returns that RegExp object, which is truthy.  [None] is an argument that
    is not a string. *)
Definition isKakaoScheme (u : option string) : bool :=
  match u with
  | Some (String _ _) => true
  | _ => false
  end.

(** What a navigation of the page ends in: the message
    [{ type: 'OPEN_DEEP_LINK', url }] posted to the native side, the original
    [window.open] called with the argument, or the browser following the link
    that was clicked. *)
Inductive Navigation : Type :=
| PostDeepLink (url : option string)
| OriginalOpen (url : option string)
| FollowLink (href : string).

(** [postDeepLink] (lines 988-994): nothing is posted without
    [window.ReactNativeWebView]. *)
Definition postDeepLink (hasBridge : bool) (u : option string)
  : list Navigation :=
  if hasBridge then [PostDeepLink u] else [].

(** The replacement of [window.open] (lines 1146-1150).  The assignments to
    [window.location.assign] and [window.location.replace] of lines 1135-1144
    are left out: both properties of [Location] are read-only, and the script
    is not in strict mode, so the assignments have no effect. *)
Definition windowOpen (hasBridge : bool) (u : option string)
  : list Navigation :=
  if isKakaoScheme u then postDeepLink hasBridge u else [OriginalOpen u].

(** The capturing click listener (lines 1152-1160), for a click inside an
    anchor whose [href] is [href]: [a && a.href && isKakaoScheme(a.href)]
    leads to [e.preventDefault()] and [postDeepLink(a.href)]. *)
Definition anchorClick (hasBridge : bool) (href : string) : list Navigation :=
  match href with
  | EmptyString => [FollowLink href]
  | _ =>
      if isKakaoScheme (Some href) then postDeepLink hasBridge (Some href)
      else [FollowLink href]
  end.

(** A message of the page as the native handler parses it: [message.type],
    and [message.url], [message.userId], [message.platform] when they are
    strings. *)
Record WebViewMessage : Type := mkWebViewMessage {
  msg_type : string;
  msg_url : option string;
  msg_userId : option string;
  msg_platform : option string
}.

(** What [event.nativeEvent.data] holds: a string that does not start with
    a brace once trimmed, the JSON text of an object, or anything else. *)
Inductive RawData : Type :=
| PlainText (s : string)
| ObjectText (m : WebViewMessage)
| OtherData.

(** What the native handler sets off. *)
Inductive NativeAction : Type :=
| TriggerHaptic
| KakaoLoginRequest (platform : option string)
| LinkingOpenURL (url : string)
| PostGpsUpdate
| ForceUpdateLocation
| LoginSuccess (userId : option string)
| Logout
| SendPlatformInfo
| Nothing.

(** [handleWebViewMessage] (lines 563-677). *)
Definition handleWebViewMessage (raw : RawData) : NativeAction :=
  match raw with
  | PlainText s => if String.eqb s "HAPTIC_TAB" then TriggerHaptic else Nothing
  | OtherData => Nothing
  | ObjectText m =>
      if String.eqb (msg_type m) "KAKAO_LOGIN" then
        KakaoLoginRequest (Some "app")
      else if String.eqb (msg_type m) "OPEN_DEEP_LINK" then
        match msg_url m with
        | Some (String c rest) => LinkingOpenURL (String c rest)
        | _ => Nothing
        end
      else if String.eqb (msg_type m) "REQUEST_LOCATION" then PostGpsUpdate
      else if String.eqb (msg_type m) "REQUEST_CURRENT_LOCATION" then
        ForceUpdateLocation
      else if String.eqb (msg_type m) "KAKAO_LOGIN_REQUEST" then
        KakaoLoginRequest (msg_platform m)
      else if String.eqb (msg_type m) "LOGIN_SUCCESS" then
        LoginSuccess (msg_userId m)
      else if String.eqb (msg_type m) "LOGOUT" then Logout
      else if String.eqb (msg_type m) "REQUEST_PLATFORM_INFO" then
        SendPlatformInfo
      else Nothing
  end.

(** The message of [postDeepLink] as the native side receives it. *)
Definition deepLinkMessage (u : option string) : RawData :=
  ObjectText (mkWebViewMessage "OPEN_DEEP_LINK" u None None).

(** The [return] statement of [onShouldStartLoadWithRequest] (lines
    1194-1269) that a URL reaches. *)
Inductive LoadBranch : Type :=
| LegacyKakaoLogin
| KakaoLink
| Intent
| KakaoScheme
| NativeRedirect
| Http
| Unknown.

Definition loadBranch (url : string) : LoadBranch :=
  if startsWith url "timedealing://kakao-login" then LegacyKakaoLogin
  else if startsWith url "kakaolink://" then KakaoLink
  else if startsWith url "intent://" then Intent
  else if kakaoSchemeRegex url then KakaoScheme
  else if startsWith url ("kakaod" ++ KAKAO_NATIVE_APP_KEY ++ "://")
          || startsWith url ("kakao" ++ KAKAO_CLIENT_ID ++ "://")
  then NativeRedirect
  else if startsWith url "http://" || startsWith url "https://" then Http
  else Unknown.

(** The value returned: whether the web view loads the URL. *)
Definition onShouldStartLoadWithRequest (url : string) : bool :=
  match loadBranch url with
  | LegacyKakaoLogin | NativeRedirect | Http => true
  | KakaoLink | Intent | KakaoScheme | Unknown => false
  end.

(** The longest run of characters other than [&] at the start of [s]. *)
Fixpoint untilAmpersand (s : string) : string :=
  match s with
  | EmptyString => EmptyString
  | String c rest =>
      if Ascii.eqb c "&" then EmptyString else String c (untilAmpersand rest)
  end.

(** What follows [pre] in [s], when [s] starts with it. *)
Fixpoint afterPrefix (pre s : string) {struct pre} : option string :=
  match pre with
  | EmptyString => Some s
  | String a pre' =>
      match s with
      | EmptyString => None
      | String c s' => if Ascii.eqb c a then afterPrefix pre' s' else None
      end
  end.

(** The pattern [code=([^&]+)] tried at the start of [s]: the captured
    group. *)
Definition codeHere (s : string) : option string :=
  match afterPrefix "code=" s with
  | Some rest =>
      match untilAmpersand rest with
      | EmptyString => None
      | code => Some code
      end
  | None => None
  end.

(** [url.match(/code=([^&]+)/)], group 1: the leftmost position where the
    pattern matches. *)
Fixpoint matchCode (s : string) : option string :=
  match codeHere s with
  | Some code => Some code
  | None =>
      match s with
      | EmptyString => None
      | String _ rest => matchCode rest
      end
  end.

(** [handleDeepLink] (lines 378-400): the authorisation code handed to
    [exchangeKakaoCode], if any. *)
Definition handleDeepLink (url : string) : option string :=
  if (includes url ("kakaod" ++ KAKAO_NATIVE_APP_KEY)
      || includes url ("kakao" ++ KAKAO_CLIENT_ID))
     && includes url "code="
  then matchCode url
  else None.

(** No [&] occurs in [s]. *)
Fixpoint noAmpersand (s : string) : bool :=
  match s with
  | EmptyString => true
  | String c rest => negb (Ascii.eqb c "&") && noAmpersand rest
  end.

(** The redirect URIs of lines 31 and 34, up to the code. *)
Definition androidRedirect : string :=
  "kakaod" ++ KAKAO_NATIVE_APP_KEY ++ "://oauth?code=".

Definition iosRedirect : string :=
  "kakao" ++ KAKAO_CLIENT_ID ++ "://oauth?code=".

End DeepLinks.

Module DeepLinksProofs.
Import Ascii String DeepLinks.
Local Open Scope string_scope.

Lemma startsWith_split pre : forall s,
  startsWith s pre = true -> exists rest, s = pre ++ rest.
Proof.
  induction pre as [|a pre IH]; intros s H.
  - exists s. reflexivity.
  - destruct s as [|c s]; simpl in H; [discriminate|].
    apply andb_true_iff in H as [Hc Hs].
    apply Ascii.eqb_eq in Hc. subst c.
    destruct (IH s Hs) as [rest ->]. exists rest. reflexivity.
Qed.

Lemma native_redirect_matches_regex url :
  startsWith url ("kakaod" ++ KAKAO_NATIVE_APP_KEY ++ "://")
  || startsWith url ("kakao" ++ KAKAO_CLIENT_ID ++ "://") = true ->
  kakaoSchemeRegex url = true.
Proof.
  intros H. apply orb_true_iff in H as [H|H];
    apply startsWith_split in H as [rest ->]; vm_compute; reflexivity.
Qed.

Lemma load_decision (url : string) :
  match loadBranch url with NativeRedirect => false | _ => true end = true
  /\ onShouldStartLoadWithRequest url =
       startsWith url "timedealing://kakao-login"
       || startsWith url "http://" || startsWith url "https://".
Proof.
  unfold onShouldStartLoadWithRequest, loadBranch.
  destruct (startsWith url "timedealing://kakao-login") eqn:Htd;
    [split; reflexivity|].
  destruct (startsWith url "kakaolink://") eqn:Hkl.
  { apply startsWith_split in Hkl as [rest ->]. split; reflexivity. }
  destruct (startsWith url "intent://") eqn:Hin.
  { apply startsWith_split in Hin as [rest ->]. split; reflexivity. }
  destruct (kakaoSchemeRegex url) eqn:Hre.
  { split; [reflexivity|].
    destruct (startsWith url "http://") eqn:Hh.
    { apply startsWith_split in Hh as [rest ->]. discriminate Hre. }
    destruct (startsWith url "https://") eqn:Hs.
    { apply startsWith_split in Hs as [rest ->]. discriminate Hre. }
    reflexivity. }
  destruct (startsWith url ("kakaod" ++ KAKAO_NATIVE_APP_KEY ++ "://")
            || startsWith url ("kakao" ++ KAKAO_CLIENT_ID ++ "://")) eqn:Hn.
  { rewrite (native_redirect_matches_regex url Hn) in Hre. discriminate. }
  rewrite orb_false_l.
  destruct (startsWith url "http://" || startsWith url "https://");
    split; reflexivity.
Qed.

(** X16 -- The pass-through for the native redirect schemes (lines 1257-1261) is
    never reached: a URL that starts with [kakaod<native key>://] or
    [kakao<client id>://] already matches the pattern of the branch before,
    which refuses the load and starts the native login.  So the web view
    loads exactly the URLs that start with [timedealing://kakao-login],
    [http://] or [https://]. *)
Theorem native_redirect_passthrough_is_dead (url : string) :
  match loadBranch url with NativeRedirect => false | _ => true end = true
  /\ (startsWith url ("kakaod" ++ KAKAO_NATIVE_APP_KEY ++ "://")
      || startsWith url ("kakao" ++ KAKAO_CLIENT_ID ++ "://") = true ->
      loadBranch url = KakaoScheme /\ onShouldStartLoadWithRequest url = false)
  /\ onShouldStartLoadWithRequest url =
       startsWith url "timedealing://kakao-login"
       || startsWith url "http://" || startsWith url "https://".
Proof.
  destruct (load_decision url) as [Hdead Hload].
  split; [exact Hdead|]. split; [|exact Hload].
  intros Hn. pose proof (native_redirect_matches_regex url Hn) as Hre.
  assert (Hb : loadBranch url = KakaoScheme).
  { unfold loadBranch. rewrite Hre.
    apply orb_true_iff in Hn as [Hn|Hn];
      apply startsWith_split in Hn as [rest ->]; reflexivity. }
  split; [exact Hb|]. unfold onShouldStartLoadWithRequest. now rewrite Hb.
Qed.

(** ** A link, from the page to the native side *)

(** X18 -- every link leaves the web view.  As the web view runs the script,
    [isKakaoScheme] is truthy for every non-empty string; so every non-empty
    URL given to [window.open], and every click on a link with such an
    [href], is kept from the browser and posted to the native side, whose
    message handler opens that very URL with [Linking.openURL] -- also when
    the URL starts with [http://] or [https://] and
    [onShouldStartLoadWithRequest] would let the web view load it. *)
Theorem deep_link_reaches_linking (u : string) :
  u <> "" ->
  windowOpen true (Some u) = [PostDeepLink (Some u)]
  /\ anchorClick true u = [PostDeepLink (Some u)]
  /\ handleWebViewMessage (deepLinkMessage (Some u)) = LinkingOpenURL u
  /\ (startsWith u "http://" || startsWith u "https://" = true ->
      onShouldStartLoadWithRequest u = true).
Proof.
  intros Hu. destruct u as [|c rest]; [contradiction|].
  repeat split.
  intros Hhttp. destruct (load_decision (String c rest)) as [_ ->].
  rewrite <- orb_assoc, Hhttp. apply orb_true_r.
Qed.

(** ** The authorisation code of a redirect *)

Lemma untilAmpersand_code c : forall rest,
  noAmpersand c = true ->
  rest = "" \/ (exists r, rest = String "&" r) ->
  untilAmpersand (c ++ rest) = c.
Proof.
  induction c as [|a c IH]; intros rest Hc Hrest; simpl in *.
  - destruct Hrest as [->|[r ->]]; reflexivity.
  - apply andb_true_iff in Hc as [Ha Hc].
    apply negb_true_iff in Ha. rewrite Ha. f_equal. now apply IH.
Qed.

Lemma codeHere_code c rest :
  c <> "" ->
  noAmpersand c = true ->
  rest = "" \/ (exists r, rest = String "&" r) ->
  codeHere ("code=" ++ c ++ rest) = Some c.
Proof.
  intros Hne Hc Hrest. unfold codeHere. simpl.
  rewrite (untilAmpersand_code c rest Hc Hrest).
  destruct c; [contradiction|reflexivity].
Qed.

Lemma includes_after pre : forall s needle,
  startsWith s needle = true -> includes (pre ++ s) needle = true.
Proof.
  induction pre as [|a pre IH]; intros s needle H; simpl.
  - destruct s; simpl; rewrite H; reflexivity.
  - rewrite (IH s needle H). apply orb_true_r.
Qed.

(** The pattern [code=([^&]+)] matches at no position inside [pre] when [s]
    follows it. *)
Fixpoint noCodeWithin (pre s : string) {struct pre} : bool :=
  match pre with
  | EmptyString => true
  | String a pre' =>
      match codeHere (String a pre' ++ s) with
      | Some _ => false
      | None => noCodeWithin pre' s
      end
  end.

Lemma matchCode_skip pre : forall s,
  noCodeWithin pre s = true -> matchCode (pre ++ s) = matchCode s.
Proof.
  induction pre as [|a pre IH]; intros s H; [reflexivity|].
  simpl in H. change (String a pre ++ s) with (String a (pre ++ s)) in *.
  cbn [matchCode].
  destruct (codeHere (String a (pre ++ s))); [discriminate|].
  now apply IH.
Qed.

Lemma matchCode_here s c : codeHere s = Some c -> matchCode s = Some c.
Proof.
  intros H. destruct s as [|a s].
  - vm_compute in H. discriminate.
  - cbn [matchCode]. rewrite H. reflexivity.
Qed.

(** X19 -- The code of a redirect is recovered.  For the Android redirect
    [kakaod<native key>://oauth?code=C] and the iOS redirect
    [kakao<client id>://oauth?code=C], followed by nothing or by further
    [&]-separated parameters, [handleDeepLink] hands exactly [C] to the token
    exchange, for every non-empty [C] without [&]. *)
Theorem redirect_code_is_recovered (c rest : string) :
  c <> "" ->
  noAmpersand c = true ->
  rest = "" \/ (exists r, rest = String "&" r) ->
  handleDeepLink (androidRedirect ++ c ++ rest) = Some c
  /\ handleDeepLink (iosRedirect ++ c ++ rest) = Some c.
Proof.
  intros Hne Hc Hrest.
  pose proof (matchCode_here _ _ (codeHere_code c rest Hne Hc Hrest)) as Hcode.
  split; unfold handleDeepLink.
  - change (androidRedirect ++ c ++ rest)
      with (("kakaod" ++ KAKAO_NATIVE_APP_KEY ++ "://oauth?")
              ++ ("code=" ++ c ++ rest)).
    rewrite (includes_after ("kakaod" ++ KAKAO_NATIVE_APP_KEY ++ "://oauth?")
               ("code=" ++ c ++ rest) "code=") by reflexivity.
    rewrite matchCode_skip by reflexivity.
    rewrite Hcode, andb_true_r.
    replace (includes
               (("kakaod" ++ KAKAO_NATIVE_APP_KEY ++ "://oauth?")
                  ++ "code=" ++ c ++ rest)
               ("kakaod" ++ KAKAO_NATIVE_APP_KEY)) with true by reflexivity.
    reflexivity.
  - change (iosRedirect ++ c ++ rest)
      with (("kakao" ++ KAKAO_CLIENT_ID ++ "://oauth?")
              ++ ("code=" ++ c ++ rest)).
    rewrite (includes_after ("kakao" ++ KAKAO_CLIENT_ID ++ "://oauth?")
               ("code=" ++ c ++ rest) "code=") by reflexivity.
    rewrite matchCode_skip by reflexivity.
    rewrite Hcode, andb_true_r.
    replace (includes
               (("kakao" ++ KAKAO_CLIENT_ID ++ "://oauth?")
                  ++ "code=" ++ c ++ rest)
               ("kakao" ++ KAKAO_CLIENT_ID)) with true by reflexivity.
    rewrite orb_true_r. reflexivity.
Qed.

Lemma untilAmpersand_clean s : noAmpersand (untilAmpersand s) = true.
Proof.
  induction s as [|a s IH]; simpl; [reflexivity|].
  destruct (Ascii.eqb a "&") eqn:E; simpl; [reflexivity|].
  now rewrite E, IH.
Qed.

Lemma codeHere_clean s c :
  codeHere s = Some c -> c <> "" /\ noAmpersand c = true.
Proof.
  unfold codeHere. destruct (afterPrefix "code=" s) as [rest|]; [|discriminate].
  pose proof (untilAmpersand_clean rest) as Hclean.
  destruct (untilAmpersand rest) as [|a code]; [discriminate|].
  intros [= <-]. split; [discriminate|exact Hclean].
Qed.

(** X20 -- Whatever the URL, a code that [handleDeepLink] hands to the token
    exchange is never empty and never contains [&]. *)
Theorem exchanged_code_is_clean (url c : string) :
  handleDeepLink url = Some c -> c <> "" /\ noAmpersand c = true.
Proof.
  unfold handleDeepLink.
  destruct ((includes url ("kakaod" ++ KAKAO_NATIVE_APP_KEY)
             || includes url ("kakao" ++ KAKAO_CLIENT_ID))
            && includes url "code="); [|discriminate].
  induction url as [|a url IH].
  - vm_compute. discriminate.
  - cbn [matchCode]. destruct (codeHere (String a url)) eqn:E.
    + intros [= <-]. now apply (codeHere_clean (String a url)).
    + exact IH.
Qed.

End DeepLinksProofs.


(** * Concrete runs of the receiver's registry, the bridge and the links *)
Module MoreRuns.
Import JS Engine.

Section RegistryRuns.
Import GpsReceiver GpsListeners GpsListenersProofs.

(** A page like [mapPage] on which page code has set
    [window.__autoFollowLocation = false]. *)
Definition frozenPage : ReceiverPage :=
  mkReceiverPage (mkGpsState false None 0 []) None (Some false) true
    (Some (Some (mkNaverMap (37.5, 127.0) true []))) [].

(** X2 with listener 1 registered, listener 2 added and removed. *)
Lemma remove_undoes_add_run :
  removeGPSListener
    (addGPSListener (addGPSListener emptyPage (Function 1)) (Function 2))
    (Function 2) =
  addGPSListener emptyPage (Function 1).
Proof.
  apply (remove_undoes_add (addGPSListener emptyPage (Function 1)) 2).
  reflexivity.
Defined.

(** X3: the callback 1 is registered twice, around the callback 2; the first
    registration goes. *)
Lemma remove_first_registration_run :
  listeners
    (gpsState
       (removeGPSListener
          (fold_left addGPSListener (map Function [1; 2; 1]%nat) emptyPage)
          (Function 1))) =
  [] ++ [2; 1]%nat.
Proof.
  apply (proj1 (remove_takes_one_registration
                  (fold_left addGPSListener (map Function [1; 2; 1]%nat)
                     emptyPage) 1 0));
    reflexivity.
Defined.

(** X4: listeners 3, 1 and 2 registered in that order, then one fix. *)
Lemma registration_order_run :
  notified
    (fst (handleLocationUpdate seriesMath
            (fold_left addGPSListener (map Function [3; 1; 2]%nat) emptyPage)
            (Some sample1000))) =
  notified emptyPage
  ++ match onGPSUpdate emptyPage with
     | Some h => [(h, sample1000)]
     | None => []
     end
  ++ map (fun f => (f, sample1000))
       (listeners (gpsState emptyPage) ++ [3; 1; 2]%nat).
Proof.
  apply (listeners_notified_in_registration_order seriesMath emptyPage
           [3; 1; 2]%nat sample1000).
  reflexivity.
Defined.

(** X6 from the initial page: an accepted fix, a payload without longitude
    and another fix. *)
Lemma store_consistent_run :
  storeConsistent
    (gpsState (deliverAll seriesMath emptyPage
                 [sample1000; noLongitude; sample900])) = true
  /\ status_isTracking
       (getGPSStatus (deliverAll seriesMath emptyPage
                        [sample1000; noLongitude; sample900])) =
     match getLastLocation (deliverAll seriesMath emptyPage
                              [sample1000; noLongitude; sample900]) with
     | Some _ => true
     | None => false
     end.
Proof.
  apply (store_stays_consistent seriesMath
           [sample1000; noLongitude; sample900] emptyPage).
  reflexivity.
Defined.

(** X7 with auto-follow switched off: two fixes far from the map's centre. *)
Lemma frozen_map_run :
  mapContainer (deliverAll seriesMath frozenPage [sample1000; sample900]) =
    mapContainer frozenPage
  /\ notified (deliverAll seriesMath frozenPage [sample1000; sample900]) =
       notified frozenPage.
Proof.
  apply (frozen_map_never_moves seriesMath [sample1000; sample900] frozenPage);
    reflexivity.
Defined.

(** X8 on [mapPage]: the fix [sample1000] is more than 50 metres from the
    centre, so the map is centred on it. *)
Lemma centred_on_sample_run :
  In (37.123, 127.456)%float (centresGiven mapPage)
  \/ exists d, In d [sample1000]
       /\ latitude d = Number (fst (37.123, 127.456)%float)
       /\ longitude d = Number (snd (37.123, 127.456)%float).
Proof.
  apply (map_centred_only_on_delivered_samples seriesMath [sample1000] mapPage
           (37.123, 127.456)%float).
  vm_compute. left. reflexivity.
Defined.

End RegistryRuns.

Section BridgeRuns.
Import GpsReceiver GpsListeners NativeBridge NativeBridgeProofs.

(** A fix of the provider without accuracy and heading, and a second one. *)
Definition fixA : LocationObject :=
  mkFix (Number 37.5) (Number 127.0) Null Null (Number 1000).

Definition fixB : LocationObject :=
  mkFix (Number 35.1796) (Number 129.0756) (Number 8) (Number 90) (Number 4000).

(** A page that defines [__updateMapFromRN]. *)
Definition readyBridge : Injected :=
  mkInjected (Present false) Absent None true [] [].

(** A page whose [__updateMapFromRN] throws, with an update queued. *)
Definition throwingBridge : Injected :=
  mkInjected (Present true) Absent (Some (injectedReads (gpsUpdate fixA)))
    true [] [].

(** The retry has stopped with an update still queued. *)
Definition stoppedBridge : Injected :=
  mkInjected Absent Absent (Some (injectedReads (gpsUpdate fixA))) false [] [].

(** X9 for [fixA]: the missing accuracy arrives as [0]. *)
Lemma tracker_fix_run :
  getLastLocation
    (onMessage seriesMath emptyPage
       (receiverReads (sendLocationToWebView fixA))) =
  Some (mkLocation (Number 37.5) (Number 127.0) (Number 0) (Number 1000)).
Proof.
  exact (tracker_fix_reaches_receiver seriesMath emptyPage fixA 37.5 eq_refl).
Defined.

(** X10 for [fixB] on a page that defines [__updateMapFromRN]. *)
Lemma message_formats_run :
  onMessage seriesMath emptyPage (receiverReads (gpsUpdate fixB)) = emptyPage
  /\ updateCalls
       (onLocationMessage readyBridge
          (injectedReads (sendLocationToWebView fixB))) =
       updateCalls readyBridge ++ [(Undefined, Undefined, Number 0)]
  /\ updateCalls
       (onLocationMessage readyBridge (injectedReads (gpsUpdate fixB))) =
       updateCalls readyBridge
       ++ [(viaJSON (coords_latitude fixB), viaJSON (coords_longitude fixB),
            logicalOr (viaJSON (nullish (coords_heading fixB) (Number 0)))
              (Number 0))].
Proof.
  apply (message_formats_do_not_match seriesMath emptyPage readyBridge false
           fixB).
  reflexivity.
Defined.

(** X11: [fixA] is queued, then [fixB]; the page defines the function and the
    interval fires. *)
Lemma latest_queued_run :
  updateCalls
    (bridgeRun freshBridge
       (map Arrives [injectedReads (gpsUpdate fixA)]
        ++ [Arrives (injectedReads (gpsUpdate fixB));
            PageSetsUpdate (Present false); Tick])) =
    updateCalls freshBridge ++ [updateArgs (injectedReads (gpsUpdate fixB))]
  /\ pendingLocationUpdate
       (bridgeRun freshBridge
          (map Arrives [injectedReads (gpsUpdate fixA)]
           ++ [Arrives (injectedReads (gpsUpdate fixB));
               PageSetsUpdate (Present false); Tick])) = None
  /\ checkPendingUpdate
       (bridgeRun freshBridge
          (map Arrives [injectedReads (gpsUpdate fixA)]
           ++ [Arrives (injectedReads (gpsUpdate fixB));
               PageSetsUpdate (Present false); Tick])) = false.
Proof.
  apply (latest_queued_update_wins freshBridge
           [injectedReads (gpsUpdate fixA)] (injectedReads (gpsUpdate fixB)));
    [reflexivity | discriminate | reflexivity | reflexivity].
Defined.

(** X12: two messages with the function defined in between and three firings
    of the interval. *)
Lemma no_update_twice_run :
  (length
     (updateCalls
        (bridgeRun freshBridge
           [Arrives (injectedReads (gpsUpdate fixA));
            PageSetsUpdate (Present false); Tick; Tick;
            Arrives (injectedReads (gpsUpdate fixB)); Tick]))
   + queued
       (bridgeRun freshBridge
          [Arrives (injectedReads (gpsUpdate fixA));
           PageSetsUpdate (Present false); Tick; Tick;
           Arrives (injectedReads (gpsUpdate fixB)); Tick])
   <= length (updateCalls freshBridge) + queued freshBridge
      + arrivals
          [Arrives (injectedReads (gpsUpdate fixA));
           PageSetsUpdate (Present false); Tick; Tick;
           Arrives (injectedReads (gpsUpdate fixB)); Tick])%nat.
Proof.
  apply (no_update_applied_twice
           [Arrives (injectedReads (gpsUpdate fixA));
            PageSetsUpdate (Present false); Tick; Tick;
            Arrives (injectedReads (gpsUpdate fixB)); Tick] freshBridge);
    [discriminate | reflexivity].
Defined.

(** X13: three firings of the interval on [throwingBridge]. *)
Lemma throwing_handler_run :
  bridgeRun throwingBridge (repeat Tick 3) =
  mkInjected (Present true) (triggerWorkflow throwingBridge)
    (Some (injectedReads (gpsUpdate fixA))) true
    (updateCalls throwingBridge
     ++ repeat (updateArgs (injectedReads (gpsUpdate fixA))) 3)
    (workflowCalls throwingBridge).
Proof.
  apply (throwing_handler_is_retried_every_tick 3 throwingBridge
           (injectedReads (gpsUpdate fixA)));
    reflexivity.
Defined.

(** X14: the page defines the function after the retry has stopped. *)
Lemma stopped_retry_run :
  updateCalls
    (bridgeRun stoppedBridge
       [PageSetsUpdate (Present false); Tick; Tick; TenSecondsPassed]) =
    updateCalls stoppedBridge
  /\ pendingLocationUpdate
       (bridgeRun stoppedBridge
          [PageSetsUpdate (Present false); Tick; Tick; TenSecondsPassed]) =
     pendingLocationUpdate stoppedBridge
  /\ checkPendingUpdate
       (bridgeRun stoppedBridge
          [PageSetsUpdate (Present false); Tick; Tick; TenSecondsPassed]) =
     false.
Proof.
  apply (stopped_retry_never_applies_queue
           [PageSetsUpdate (Present false); Tick; Tick; TenSecondsPassed]
           stoppedBridge);
    reflexivity.
Defined.

End BridgeRuns.

Section LinkRuns.
Import Ascii String DeepLinks DeepLinksProofs.
Local Open Scope string_scope.

(** X16 for an Android redirect: it is caught by the branch of the pattern. *)
Lemma native_redirect_run :
  loadBranch (androidRedirect ++ "abc123") = KakaoScheme
  /\ onShouldStartLoadWithRequest (androidRedirect ++ "abc123") = false.
Proof.
  apply (proj1 (proj2 (native_redirect_passthrough_is_dead
                         (androidRedirect ++ "abc123")))).
  reflexivity.
Defined.

(** X18 for an ordinary web page. *)
Lemma deep_link_run :
  windowOpen true (Some "https://example.com/") =
    [PostDeepLink (Some "https://example.com/")]
  /\ anchorClick true "https://example.com/" =
       [PostDeepLink (Some "https://example.com/")]
  /\ handleWebViewMessage (deepLinkMessage (Some "https://example.com/")) =
       LinkingOpenURL "https://example.com/"
  /\ (startsWith "https://example.com/" "http://"
      || startsWith "https://example.com/" "https://" = true ->
      onShouldStartLoadWithRequest "https://example.com/" = true).
Proof.
  apply (deep_link_reaches_linking "https://example.com/"). discriminate.
Defined.

(** X19 for the code [abc123] followed by a [state] parameter. *)
Lemma redirect_code_run :
  handleDeepLink (androidRedirect ++ "abc123" ++ "&state=x") = Some "abc123"
  /\ handleDeepLink (iosRedirect ++ "abc123" ++ "&state=x") = Some "abc123".
Proof.
  apply (redirect_code_is_recovered "abc123" "&state=x");
    [discriminate | reflexivity | right; exists "state=x"; reflexivity].
Defined.

(** X20 for a URL in which [code=] occurs twice: the first one counts. *)
Lemma exchanged_code_run :
  "ab" <> "" /\ noAmpersand "ab" = true.
Proof.
  apply (exchanged_code_is_clean (iosRedirect ++ "ab&code=cd") "ab").
  vm_compute. reflexivity.
Defined.

End LinkRuns.


End MoreRuns.
